(** * The confirmation API client ([confirm.js])

    A shallow embedding of the client of the confirmation service:
    signup, invitation and password-reset calls.  Every operation builds
    one HTTP request, hands it to a transport and maps the transport's
    answer to one invocation of the caller's callback.

    The embedding keeps JavaScript's dynamic values, a store of objects
    (the code mutates the transport's error object in place and hands
    the same object on), exceptions, and a trace of what an operation
    does to the outside world: the requests it issues and the callback
    invocations it makes.

    Modelled are the operations that talk to a transport themselves
    (signupStart, signupConfirm, custodialSignupConfirm, signupResend,
    invitesReceived, requestPasswordReset, confirmPasswordReset) and
    invitesSent, which hands its table to [common.doGetWithToken], a
    parameter here.  The other operations only forward their arguments
    to [common]'s [doPutWithToken] and [doPostWithToken]. *)

From Stdlib Require Import ZArith String List Bool.
From stdpp Require Import base option list gmap strings pretty.

(** ** Values and the object store *)

Abbreviation loc := nat.

(** Primitive values and references to objects.  Numbers are the
    integral ones: the only numbers this module looks at are HTTP
    status codes. *)
Inductive value :=
| VUndef
| VNull
| VBool (b : bool)
| VNum (n : Z)
| VStr (s : string)
| VRef (l : loc).

#[global] Instance value_eq_dec : EqDecision value.
Proof. solve_decision. Defined.

(** What an object is besides its properties: a plain object, an array
    with its elements, or an [Error] with the name of its class. *)
Inductive kind :=
| KObject
| KArray (elems : list value)
| KError (name : string).

(** An object: its kind and its own string-keyed properties. *)
Record object := Obj { okind : kind; props : gmap string value }.

Abbreviation heap := (list object).

Definition set_field (k : string) (v : value) (o : object) : object :=
  Obj (okind o) (<[k := v]> (props o)).

(** [{k1: v1, ...}] *)
Definition literal (fields : list (string * value)) : object :=
  Obj KObject (list_to_map fields).

(** [[]] *)
Definition empty_array : object := Obj (KArray []) ∅.

(** [new Error(msg)] *)
Definition error_object (name msg : string) : object :=
  Obj (KError name) {[ "message" := VStr msg ]}.

(** ** Operators of the language *)

(** ToBoolean. *)
Definition truthy (v : value) : bool :=
  match v with
  | VUndef | VNull => false
  | VBool b => b
  | VNum n => negb (Z.eqb n 0)
  | VStr s => negb (String.eqb s "")
  | VRef _ => true
  end.

(** [v == null] *)
Definition nullish (v : value) : bool :=
  match v with
  | VUndef | VNull => true
  | _ => false
  end.

(** [a === b]: on primitives by value, on objects by identity. *)
Definition strict_eq (a b : value) : bool := bool_decide (a = b).

(** Reading property [k] of [v] where that cannot throw: an own property
    of an object, [undefined] when the object has none.  Primitives
    have none of the properties this module reads ([response], [body],
    [reason], [error], [status], [key], [email], [password]), and
    neither have the standard prototypes. *)
Definition field (h : heap) (v : value) (k : string) : value :=
  match v with
  | VRef l =>
      match h !! l with
      | Some o => default VUndef (props o !! k)
      | None => VUndef
      end
  | _ => VUndef
  end.

(** Template-literal conversion [`${v}`].  The values this module
    interpolates are strings that passed the [_.isString] guard and the
    numeric status of a fetch response; an object takes the default
    rendering of a plain object. *)
Definition to_string (v : value) : string :=
  match v with
  | VUndef => "undefined"
  | VNull => "null"
  | VBool true => "true"
  | VBool false => "false"
  | VNum n => pretty n
  | VStr s => s
  | VRef _ => "[object Object]"
  end.

(** ** lodash *)

(** [_.isString] (string objects made with [new String] are outside the
    value model). *)
Definition isString (v : value) : bool :=
  match v with
  | VStr _ => true
  | _ => false
  end.

(** [_.isEmpty]: [null] and [undefined] are empty, strings and arrays
    are empty when their length is zero, any other value is empty when
    it has no own enumerable string-keyed property; the [message] and
    [stack] of an [Error] are not enumerable. *)
Definition isEmpty (h : heap) (v : value) : bool :=
  match v with
  | VUndef | VNull => true
  | VBool _ | VNum _ => true
  | VStr s => String.eqb s ""
  | VRef l =>
      match h !! l with
      | Some (Obj KObject ps) => bool_decide (ps = ∅)
      | Some (Obj (KArray es) _) => bool_decide (es = [])
      | Some (Obj (KError _) ps) =>
          bool_decide (delete "stack" (delete "message" ps) = ∅)
      | None => true
      end
  end.

(** ** Requests, transports and the outside world *)

Inductive method := GET | PUT | POST.

(** What an operation hands to a transport: the method, the URL, the
    headers in the order they are set, the body given to [send] and
    the [cache] option given to [fetch]. *)
Record request := Request {
  rmethod : method;
  rurl : string;
  rheaders : list (string * value);
  rbody : option value;
  rcache : option string
}.

(** The response of the fetch-style transport: [ok], [status] and what
    the promise of [text()] settles to, the body text or a rejection. *)
Record response := Response {
  ok : bool;
  status : Z;
  text : string + value
}.

(** The Fetch standard's response for a status code: [ok] is true for
    the statuses 200 to 299. *)
Definition standard_response (st : Z) (body : string) : response :=
  Response (Z.leb 200 st && Z.leb st 299) st (inl body).

(** What the promise of [fetch] settles to. *)
Inductive settled :=
| Resolved (r : response)
| Rejected (reason : value).

(** The injected transports ([deps.superagent] and the global [fetch]),
    as what they answer to a request: superagent the pair [(err, res)]
    it passes to the [end] callback, fetch the outcome of its promise.
    The objects of an answer live in the store. *)
Record Deps := {
  superagent : request -> value * value;
  fetch : request -> settled
}.

(** The injected [common] utilities this module uses without defining
    them: URL construction from a path, the session token, the trace
    session id, and two constants. *)
Record Common := {
  makeAPIUrl : string -> string;
  getToken : value;
  getSessionTrace : value;
  STATUS_BAD_REQUEST : Z;
  SESSION_TOKEN_HEADER : string
}.

(** What the outside world sees of an operation, in order: a request
    handed to a transport, and an invocation of the caller's callback
    with its arguments ([cb()] is [Called []], [cb(null)] is
    [Called [VNull]]). *)
Inductive event :=
| Sent (rq : request)
| Called (args : list value).

Record state := State { st_heap : heap; st_trace : list event }.

(** ** The monad of operations: state and exceptions *)

Inductive result (A : Type) :=
| Ok (a : A)
| Throw (e : value).
Arguments Ok {A} a.
Arguments Throw {A} e.

Definition M (A : Type) : Type := state -> result A * state.

Definition ret {A} (a : A) : M A := fun s => (Ok a, s).

Definition bind {A B} (m : M A) (k : A -> M B) : M B :=
  fun s =>
    match m s with
    | (Ok a, s') => k a s'
    | (Throw e, s') => (Throw e, s')
    end.

Notation "'let*' x ':=' m 'in' k" := (bind m (fun x => k))
  (at level 10, x name, m at level 100, k at level 200).
Notation "m ';;;' k" := (bind m (fun _ => k))
  (at level 100, k at level 200, right associativity).

Definition throw {A} (e : value) : M A := fun s => (Throw e, s).

(** [try { m } catch (e) { handler e }] *)
Definition try_catch {A} (m : M A) (handler : value -> M A) : M A :=
  fun s =>
    match m s with
    | (Throw e, s') => handler e s'
    | r => r
    end.

Definition read {A} (f : heap -> A) : M A := fun s => (Ok (f (st_heap s)), s).

(** Allocation of a new object at the end of the store. *)
Definition alloc (o : object) : M value :=
  fun s => (Ok (VRef (length (st_heap s))),
            State (st_heap s ++ [o]) (st_trace s)).

Definition emit (e : event) : M unit :=
  fun s => (Ok tt, State (st_heap s) (st_trace s ++ [e])).

(** The caller's callback: the model records each invocation and the
    callback returns normally.  (The operations default it to [_.noop]
    when the caller passes none.) *)
Definition cb (args : list value) : M unit := emit (Called args).

(** A [TypeError] raised by the language itself; the text of its
    message is the engine's. *)
Definition type_error {A} : M A :=
  let* e := alloc (error_object "TypeError" "Cannot read properties of undefined") in
  throw e.

(** [v.k]: throws on [null] and [undefined]. *)
Definition get (v : value) (k : string) : M value :=
  if nullish v then type_error else read (fun h => field h v k).

(** [v.k = x] in strict mode (the file starts with ['use strict']):
    writes the property of an object, throws on anything else. *)
Definition set (v : value) (k : string) (x : value) : M unit :=
  match v with
  | VRef l => fun s => (Ok tt, State (alter (set_field k x) l (st_heap s)) (st_trace s))
  | _ => type_error
  end.

(** [a && b] and [a || b]: the right operand is evaluated only when the
    left one does not decide. *)
Definition js_and (a b : M value) : M value :=
  let* x := a in if truthy x then b else ret x.

Definition js_or (a b : M value) : M value :=
  let* x := a in if truthy x then ret x else b.

(** The same on conditions. *)
Definition orb_lazy (a b : M bool) : M bool :=
  let* x := a in if x then ret true else b.

(** A default parameter value [p = d]: used when the argument is
    [undefined]. *)
Definition default_param (v d : value) : value :=
  match v with
  | VUndef => d
  | _ => v
  end.

(** Running an operation on a store, from an empty trace. *)
Definition run {A} (m : M A) (h : heap) : result A * state := m (State h []).

(** [v.k1.k2...], each step a property read. *)
Fixpoint path (v : value) (ks : list string) : M value :=
  match ks with
  | [] => ret v
  | k :: ks' => let* x := get v k in path x ks'
  end.

(** ** The module *)

(** A status-code table entry of the [WithToken] helpers: a function of
    the response, or a value given as it is. *)
Inductive handler :=
| HFun (f : value -> M value)
| HVal (v : value).

Section Confirm.

Variable common : Common.
Variable deps : Deps.

(** superagent's [request.end(function (err, res) { ... })]: the request
    goes out and the callback is given the transport's answer. *)
Definition superagent_end (rq : request) (k : value -> value -> M unit) : M unit :=
  emit (Sent rq) ;;;
  let (err, res) := superagent deps rq in k err res.

(** [fetch(url, init).then(on_response).catch(on_reject)]: the request
    goes out; [on_reject] is given the rejection of [fetch] or whatever
    [on_response] throws. *)
Definition fetch_then_catch (rq : request)
    (on_response : response -> M unit) (on_reject : value -> M unit) : M unit :=
  emit (Sent rq) ;;;
  match fetch deps rq with
  | Resolved r => try_catch (on_response r) on_reject
  | Rejected reason => on_reject reason
  end.

(** [await response.text()] *)
Definition await_text (r : response) : M value :=
  match text r with
  | inl s => ret (VStr s)
  | inr reason => throw reason
  end.

(** Modelled from the spec: [common.assertArgumentsSize] is defined
    outside this file.  The spec calls it argument-count validation and
    says that malformed required arguments are answered by an exception
    thrown before any network activity.  [argc] is [arguments.length];
    the text of the error is not given by the spec and left empty. *)
Definition assertArgumentsSize (argc n : nat) : M unit :=
  if Nat.eqb argc n then ret tt
  else let* e := alloc (error_object "Error" "") in throw e.

(** [common.doGetWithToken(path, codes, cb)] is defined outside this
    file and taken as it comes: a parameter, given the path and the
    status-code table, that calls back on the recording callback. *)
Variable doGetWithToken : string -> list (Z * handler) -> M unit.

(** [signupStart(invitedId, lang = 'en', cb = _.noop)] *)
Definition signupStart (invitedId lang : value) : M unit :=
  let lang := default_param lang (VStr "en") in
  let* invalid := orb_lazy (read (fun h => isEmpty h invitedId))
                           (ret (negb (isString invitedId))) in
  if invalid then
    let* e := alloc (error_object "Error" "Invalid parameter invitedId") in
    throw e
  else
    let url := makeAPIUrl common ("/confirm/send/signup/" +:+ to_string invitedId) in
    fetch_then_catch
      (Request POST url
         [("x-tidepool-session-token", getToken common);
          ("x-tidepool-trace-session", getSessionTrace common);
          ("x-tidepool-language", lang)]
         None (Some "no-cache"))
      (fun response =>
         if ok response then cb [VNull]
         else
           let* e := alloc (error_object "Error"
                      ("Invalid HTTP response " +:+ to_string (VNum (status response)))) in
           cb [e])
      (fun reason => cb [reason]).

(** The callback [signupConfirm] gives to [end]. *)
Definition signupConfirm_end (err res : value) : M unit :=
  if negb (nullish err) then
    let* m := js_or (js_and (js_and (get err "response")
                                    (path err ["response"; "body"]))
                            (path err ["response"; "body"; "reason"]))
                    (ret (VStr "")) in
    set err "message" m ;;;
    cb [err]
  else
    let* st := get res "status" in
    if negb (strict_eq st (VNum 200)) then
      let* st' := get res "status" in
      let* reason := path res ["body"; "reason"] in
      let* d := alloc (literal [("status", st'); ("message", reason)]) in
      cb [d]
    else cb [].

(** [signupConfirm(signupId, cb)], called with [argc] arguments;
    [signupId] is the string its documentation asks for, here and in
    the other operations that only append the id to a path. *)
Definition signupConfirm (argc : nat) (signupId : string) : M unit :=
  assertArgumentsSize argc 2 ;;;
  superagent_end
    (Request PUT (makeAPIUrl common ("/confirm/accept/signup/" +:+ signupId))
       [] None None)
    signupConfirm_end.

(** The callback [custodialSignupConfirm] gives to [end]. *)
Definition custodialSignupConfirm_end (err res : value) : M unit :=
  if negb (nullish err) then
    let* e := js_or (js_and (js_and (get err "response")
                                    (path err ["response"; "body"]))
                            (path err ["response"; "body"; "error"]))
                    (ret (VStr "")) in
    set err "error" e ;;;
    let* m := js_or (js_and (js_and (get err "response")
                                    (path err ["response"; "body"]))
                            (path err ["response"; "body"; "reason"]))
                    (ret (VStr "")) in
    set err "message" m ;;;
    cb [err]
  else
    let* st := get res "status" in
    if negb (strict_eq st (VNum 200)) then
      let* st' := get res "status" in
      let* error := path res ["body"; "error"] in
      let* reason := path res ["body"; "reason"] in
      let* d := alloc (literal [("status", st'); ("error", error); ("message", reason)]) in
      cb [d]
    else cb [].

(** [custodialSignupConfirm(signupId, birthday, password, cb)] *)
Definition custodialSignupConfirm (argc : nat) (signupId : string)
    (birthday password : value) : M unit :=
  assertArgumentsSize argc 4 ;;;
  let* body := alloc (literal [("birthday", birthday); ("password", password)]) in
  superagent_end
    (Request PUT (makeAPIUrl common ("/confirm/accept/signup/" +:+ signupId))
       [] (Some body) None)
    custodialSignupConfirm_end.

(** [signupResend(email, lang = 'en', cb = _.noop)] *)
Definition signupResend (email lang : value) : M unit :=
  let lang := default_param lang (VStr "en") in
  let* invalid := orb_lazy (read (fun h => isEmpty h email))
                           (ret (negb (isString email))) in
  if invalid then
    let* e := alloc (error_object "Error" "Invalid parameter email") in
    throw e
  else
    let url := makeAPIUrl common ("/confirm/resend/signup/" +:+ to_string email) in
    fetch_then_catch
      (Request POST url
         [("x-tidepool-trace-session", getSessionTrace common);
          ("x-tidepool-language", lang)]
         None (Some "no-cache"))
      (fun response =>
         if ok response then cb [VNull]
         else
           let* t := await_text response in
           let* d := alloc (literal [("status", VNum (status response)); ("message", t)]) in
           cb [d])
      (fun reason => cb [reason]).


(** The callback [invitesReceived] gives to [end]. *)
Definition invitesReceived_end (err res : value) : M unit :=
  if negb (nullish err) then
    let* st := get err "status" in
    if strict_eq st (VNum 404) then
      let* a := alloc empty_array in
      cb [VNull; a]
    else
      let* b := js_or (js_and (get err "response") (path err ["response"; "body"]))
                      (alloc empty_array) in
      cb [b]
  else
    let* st := get res "status" in
    if strict_eq st (VNum 200) then
      let* b := get res "body" in
      cb [VNull; b]
    else
      let* st' := get res "status" in
      if strict_eq st' (VNum 404) then
        let* a := alloc empty_array in
        cb [VNull; a]
      else
        let* b := get res "body" in
        let* a := alloc empty_array in
        cb [b; a].

(** [invitesReceived(inviteeId, cb)] *)
Definition invitesReceived (argc : nat) (inviteeId : string) : M unit :=
  assertArgumentsSize argc 2 ;;;
  superagent_end
    (Request GET (makeAPIUrl common ("/confirm/invitations/" +:+ inviteeId))
       [(SESSION_TOKEN_HEADER common, getToken common)] None None)
    invitesReceived_end.

(** [requestPasswordReset(email, info = true, lang = 'en', cb = _.noop)] *)
Definition requestPasswordReset (email info lang : value) : M unit :=
  let info := default_param info (VBool true) in
  let lang := default_param lang (VStr "en") in
  let* invalid := orb_lazy (read (fun h => isEmpty h email))
                           (ret (negb (isString email))) in
  if invalid then
    let* e := alloc (error_object "Error" "Invalid parameter email") in
    throw e
  else
    let url := makeAPIUrl common
                 ("/confirm/send/forgot/" +:+ to_string email
                    +:+ (if truthy info then "?info=ok" else "")) in
    fetch_then_catch
      (Request POST url
         [("x-tidepool-trace-session", getSessionTrace common);
          ("x-tidepool-language", lang)]
         None (Some "no-cache"))
      (fun response =>
         if ok response then cb [VNull]
         else
           let* t := await_text response in
           let* d := alloc (literal [("status", VNum (status response)); ("message", t)]) in
           cb [d])
      (fun reason => cb [reason]).

(** The callback [confirmPasswordReset] gives to [end]. *)
Definition confirmPasswordReset_end (err res : value) : M unit :=
  if negb (nullish err) then
    let* m := js_or (js_and (get err "response") (path err ["response"; "error"]))
                    (ret (VStr "")) in
    set err "message" m ;;;
    cb [err]
  else
    let* st := get res "status" in
    if negb (strict_eq st (VNum 200)) then
      let* st' := get res "status" in
      let* e := get res "error" in
      let* d := alloc (literal [("status", st'); ("message", e)]) in
      cb [d]
    else cb [].

(** [confirmPasswordReset(payload, cb)] *)
Definition confirmPasswordReset (argc : nat) (payload : value) : M unit :=
  assertArgumentsSize argc 2 ;;;
  let isEmpty_of k := let* x := get payload k in read (fun h => isEmpty h x) in
  let* incomplete := orb_lazy (orb_lazy (isEmpty_of "key") (isEmpty_of "email"))
                              (isEmpty_of "password") in
  if incomplete then
    let* d := alloc (literal
                [("status", VNum (STATUS_BAD_REQUEST common));
                 ("body", VStr "payload requires object with `key`, `email`, `password`")]) in
    cb [d]
  else
    superagent_end
      (Request PUT (makeAPIUrl common "/confirm/accept/forgot") [] (Some payload) None)
      confirmPasswordReset_end.

End Confirm.

(** ** Definitions for the statements

    A concrete environment and concrete stores for running the
    operations, ways of reading a trace, and the values the statements
    below speak about. *)

(** An instance of the injected utilities. *)
Definition demo_common : Common :=
  {| makeAPIUrl := fun p => "https://api.example.org" +:+ p;
     getToken := VStr "token-1";
     getSessionTrace := VStr "trace-1";
     STATUS_BAD_REQUEST := 400;
     SESSION_TOKEN_HEADER := "x-tidepool-session-token" |}.

(** Transports with a fixed answer. *)
Definition demo_deps (err res : value) (f : settled) : Deps :=
  {| superagent := fun _ => (err, res); fetch := fun _ => f |}.

(** The requests and the callback invocations of a trace, in order. *)
Definition requests (tr : list event) : list request :=
  omap (fun e => match e with Sent rq => Some rq | _ => None end) tr.

Definition calls (tr : list event) : list (list value) :=
  omap (fun e => match e with Called args => Some args | _ => None end) tr.

(** [v || ''] *)
Definition or_empty (v : value) : value := if truthy v then v else VStr "".

(** Property [k] of the body of the response attached to [err], read
    without throwing: [undefined] as soon as a step is missing. *)
Definition body_field (h : heap) (err : value) (k : string) : value :=
  field h (field h (field h err "response") "body") k.

(** A transport error with a partial response whose body gives a
    reason, and a complete payload for the password reset. *)
Definition failed_with_reason : heap :=
  [ Obj (KError "Error") {[ "message" := VStr "Not Found"; "response" := VRef 1 ]};
    literal [("body", VRef 2); ("error", VBool false)];
    literal [("reason", VStr "expired")];
    literal [("key", VStr "k1"); ("email", VStr "a@b.c"); ("password", VStr "pw")] ].

(** The requests the superagent operations build. *)
Definition signupConfirm_request (common : Common) (id : string) : request :=
  Request PUT (makeAPIUrl common ("/confirm/accept/signup/" +:+ id)) [] None None.

Definition custodialSignupConfirm_request (common : Common) (id : string) (body : value)
  : request :=
  Request PUT (makeAPIUrl common ("/confirm/accept/signup/" +:+ id)) [] (Some body) None.

Definition confirmPasswordReset_request (common : Common) (payload : value) : request :=
  Request PUT (makeAPIUrl common "/confirm/accept/forgot") [] (Some payload) None.

Definition invitesReceived_request (common : Common) (id : string) : request :=
  Request GET (makeAPIUrl common ("/confirm/invitations/" +:+ id))
    [(SESSION_TOKEN_HEADER common, getToken common)] None None.

(** A response with status 500 whose body gives a reason and an error
    code, and a complete payload for the password reset. *)
Definition server_error_with_reason : heap :=
  [ literal [("status", VNum 500); ("body", VRef 1); ("error", VBool true)];
    literal [("reason", VStr "boom"); ("error", VStr "E1")];
    literal [("key", VStr "k1"); ("email", VStr "a@b.c"); ("password", VStr "pw")] ].





(** What the two kinds of [then] callbacks of the fetch-style
    operations do with a response: the one of signupStart, and the one
    shared by signupResend and requestPasswordReset. *)
Definition signupStart_outcome (h : heap) (rq : request) (a : settled) : result unit * state :=
  match a with
  | Resolved r =>
      if ok r then (Ok tt, State h [Sent rq; Called [VNull]])
      else (Ok tt,
            State (h ++ [error_object "Error"
                           ("Invalid HTTP response " +:+ pretty (status r))])
                  [Sent rq; Called [VRef (length h)]])
  | Rejected reason => (Ok tt, State h [Sent rq; Called [reason]])
  end.

Definition resend_outcome (h : heap) (rq : request) (a : settled) : result unit * state :=
  match a with
  | Resolved r =>
      if ok r then (Ok tt, State h [Sent rq; Called [VNull]])
      else match text r with
           | inl t =>
               (Ok tt,
                State (h ++ [literal [("status", VNum (status r)); ("message", VStr t)]])
                      [Sent rq; Called [VRef (length h)]])
           | inr reason => (Ok tt, State h [Sent rq; Called [reason]])
           end
  | Rejected reason => (Ok tt, State h [Sent rq; Called [reason]])
  end.

(** A request sent to another URL, and a trace with every request's
    URL replaced: what is left is everything but the URLs. *)
Definition with_url (u : string) (rq : request) : request :=
  Request (rmethod rq) u (rheaders rq) (rbody rq) (rcache rq).

Definition event_with_url (u : string) (e : event) : event :=
  match e with
  | Sent rq => Sent (with_url u rq)
  | Called args => Called args
  end.



(** The requests the fetch-style operations build. *)
Definition signupStart_request (common : Common) (s : string) (lang : value) : request :=
  Request POST (makeAPIUrl common ("/confirm/send/signup/" +:+ s))
    [("x-tidepool-session-token", getToken common);
     ("x-tidepool-trace-session", getSessionTrace common);
     ("x-tidepool-language", default_param lang (VStr "en"))]
    None (Some "no-cache").

Definition signupResend_request (common : Common) (s : string) (lang : value) : request :=
  Request POST (makeAPIUrl common ("/confirm/resend/signup/" +:+ s))
    [("x-tidepool-trace-session", getSessionTrace common);
     ("x-tidepool-language", default_param lang (VStr "en"))]
    None (Some "no-cache").

Definition requestPasswordReset_request (common : Common) (s : string) (info lang : value)
  : request :=
  Request POST
    (makeAPIUrl common
       ("/confirm/send/forgot/" +:+ s
          +:+ (if truthy (default_param info (VBool true)) then "?info=ok" else "")))
    [("x-tidepool-trace-session", getSessionTrace common);
     ("x-tidepool-language", default_param lang (VStr "en"))]
    None (Some "no-cache").

(** The normalized error descriptor: an object with a [status] that is
    a number or [null] and a [message] that is a string. *)
Definition is_descriptor (h : heap) (v : value) : bool :=
  match field h v "status", field h v "message" with
  | VNum _, VStr _ | VNull, VStr _ => true
  | _, _ => false
  end.

(** What a computation does to the outside world and to the store, as
    a bound: from any state it adds at most [nr] requests and at most
    [nc] callback invocations to the trace, and every object already in
    the store, other than the one [e] refers to, is still there
    unchanged afterwards. *)
Definition behaves (e : value) (nr nc : nat) {A} (m : M A) : Prop :=
  forall s,
    (exists extra,
        st_trace (snd (m s)) = st_trace s ++ extra
        /\ length (requests extra) <= nr
        /\ length (calls extra) <= nc)
    /\ (forall l o,
          st_heap s !! l = Some o -> VRef l <> e ->
          st_heap (snd (m s)) !! l = Some o).

(** An outcome with at most one request and at most one invocation of
    the callback. *)
Definition at_most_once {A} (out : result A * state) : Prop :=
  length (requests (st_trace (snd out))) <= 1
  /\ length (calls (st_trace (snd out))) <= 1.

(** An outcome in which the objects of the store [h], other than those
    [spared] leaves out, are still there unchanged. *)
Definition keeps {A} (h : heap) (spared : loc -> Prop) (out : result A * state) : Prop :=
  forall l o, h !! l = Some o -> spared l -> st_heap (snd out) !! l = Some o.

(** ** Basic facts *)

Arguments literal : simpl never.
Arguments error_object : simpl never.
Arguments empty_array : simpl never.
Arguments set_field : simpl never.
Arguments isEmpty : simpl never.
Arguments field : simpl never.

Lemma truthy_not_nullish v : truthy v = true -> nullish v = false.
Proof. by destruct v. Qed.

Lemma field_of_falsy h v k : truthy v = false -> field h v k = VUndef.
Proof. by destruct v. Qed.


(** Objects already in the store read the same after an allocation. *)
Lemma field_alloc h h' l o k :
  h !! l = Some o -> field (h ++ h') (VRef l) k = field h (VRef l) k.
Proof.
  intros Hl. unfold field.
  by rewrite (lookup_app_l_Some _ _ _ _ Hl), Hl.
Qed.

(** Writing property [k] leaves every other property of every object
    as it was. *)
Lemma field_set_other h l k x v k' :
  k <> k' -> field (alter (set_field k x) l h) v k' = field h v k'.
Proof.
  intros Hk. destruct v as [| | | | |l']; try done.
  unfold field. destruct (decide (l = l')) as [<-|Hl].
  - rewrite list_lookup_alter_eq. destruct (h !! l) as [o|]; simpl; [|done].
    unfold set_field; simpl. by rewrite lookup_insert_ne.
  - by rewrite list_lookup_alter_ne.
Qed.

Lemma alter_lookup (h : heap) l o f :
  h !! l = Some o -> alter f l h = <[l := f o]> h.
Proof.
  intros Hl. apply list_eq; intros i.
  destruct (decide (i = l)) as [->|Hi].
  - rewrite list_lookup_alter_eq, Hl. simpl.
    by rewrite list_lookup_insert_eq by (by eapply lookup_lt_Some).
  - by rewrite list_lookup_alter_ne, list_lookup_insert_ne.
Qed.

Lemma isEmpty_empty_string h : isEmpty h (VStr "") = true.
Proof. reflexivity. Qed.

Lemma isEmpty_undefined h : isEmpty h VUndef = true.
Proof. reflexivity. Qed.

(** ** Precondition checks of the signup and reset operations *)

(** The guard [_.isEmpty(x) || !_.isString(x)] lets through exactly
    the non-empty strings. *)
Lemma guard_bad h v :
  v = VStr "" \/ isString v = false ->
  orb_lazy (read (fun h => isEmpty h v)) (ret (negb (isString v))) (State h [])
  = (Ok true, State h []).
Proof.
  intros [-> | Hs]; [done|].
  unfold orb_lazy, bind, read, ret; simpl.
  destruct (isEmpty h v); [done|]. by rewrite Hs.
Qed.

Lemma guard_good h s :
  s <> "" ->
  orb_lazy (read (fun h => isEmpty h (VStr s))) (ret (negb (isString (VStr s)))) (State h [])
  = (Ok false, State h []).
Proof.
  intros Hs. unfold orb_lazy, bind, read, ret; simpl.
  unfold isEmpty. by destruct s.
Qed.

(** C3: signupStart, signupResend and requestPasswordReset, called with
    an identifier or email that is the empty string or is not a string,
    throw an error synchronously: the operation ends in an exception
    (the freshly made [Error] with the source's message) and its trace
    is empty, so no request was issued and the callback was not
    called. *)
Theorem signup_reset_reject_bad_identifier common deps h v lang info :
  v = VStr "" \/ isString v = false ->
  run (signupStart common deps v lang) h
    = (Throw (VRef (length h)),
       State (h ++ [error_object "Error" "Invalid parameter invitedId"]) [])
  /\ run (signupResend common deps v lang) h
    = (Throw (VRef (length h)),
       State (h ++ [error_object "Error" "Invalid parameter email"]) [])
  /\ run (requestPasswordReset common deps v info lang) h
    = (Throw (VRef (length h)),
       State (h ++ [error_object "Error" "Invalid parameter email"]) []).
Proof.
  intros Hv. pose proof (guard_bad h v Hv) as Hg.
  unfold signupStart, signupResend, requestPasswordReset, run.
  repeat split; unfold bind at 1; rewrite Hg; reflexivity.
Qed.

Lemma signup_reset_reject_bad_identifier_witness :
  let deps := demo_deps VNull VNull (Resolved (standard_response 200 "")) in
  run (signupStart demo_common deps (VNum 7) VUndef) []
    = (Throw (VRef 0),
       State [error_object "Error" "Invalid parameter invitedId"] [])
  /\ run (signupResend demo_common deps (VNum 7) VUndef) []
    = (Throw (VRef 0),
       State [error_object "Error" "Invalid parameter email"] [])
  /\ run (requestPasswordReset demo_common deps (VNum 7) VUndef VUndef) []
    = (Throw (VRef 0),
       State [error_object "Error" "Invalid parameter email"] []).
Proof.
  intros deps.
  apply (signup_reset_reject_bad_identifier demo_common deps [] (VNum 7) VUndef VUndef).
  right. reflexivity.
Defined.

(** ** Fail-fast validation of confirmPasswordReset *)

Lemma get_defined v k s :
  nullish v = false -> get v k s = (Ok (field (st_heap s) v k), s).
Proof. unfold get. by intros ->. Qed.

Lemma field_fresh h o k :
  field (h ++ [o]) (VRef (length h)) k = default VUndef (props o !! k).
Proof. unfold field. by rewrite list_lookup_middle. Qed.

Lemma confirmPasswordReset_run_incomplete common deps h payload :
  nullish payload = false ->
  isEmpty h (field h payload "key") = true
  \/ isEmpty h (field h payload "email") = true
  \/ isEmpty h (field h payload "password") = true ->
  run (confirmPasswordReset common deps 2 payload) h
  = (Ok tt,
     State (h ++ [literal
                    [("status", VNum (STATUS_BAD_REQUEST common));
                     ("body", VStr "payload requires object with `key`, `email`, `password`")]])
           [Called [VRef (length h)]]).
Proof.
  intros Hp He.
  unfold confirmPasswordReset, run, assertArgumentsSize; simpl.
  unfold orb_lazy, bind, ret, read; simpl.
  rewrite !get_defined by done; simpl.
  destruct (isEmpty h (field h payload "key")); [done|].
  rewrite !get_defined by done; simpl.
  destruct (isEmpty h (field h payload "email")); [done|].
  rewrite !get_defined by done; simpl.
  destruct (isEmpty h (field h payload "password")); [done|].
  by destruct He as [?|[?|?]].
Qed.

(** C4: for a payload whose [key], [email] or [password] is empty (in
    the sense of [_.isEmpty], which covers a missing field),
    confirmPasswordReset calls the callback once, with a new object
    whose [status] is [common.STATUS_BAD_REQUEST], and issues no
    request: the callback invocation is the whole trace. *)
Theorem confirmPasswordReset_fail_fast common deps h payload :
  nullish payload = false ->
  isEmpty h (field h payload "key") = true
  \/ isEmpty h (field h payload "email") = true
  \/ isEmpty h (field h payload "password") = true ->
  run (confirmPasswordReset common deps 2 payload) h
  = (Ok tt,
     State (h ++ [literal
                    [("status", VNum (STATUS_BAD_REQUEST common));
                     ("body", VStr "payload requires object with `key`, `email`, `password`")]])
           [Called [VRef (length h)]])
  /\ field (h ++ [literal
                    [("status", VNum (STATUS_BAD_REQUEST common));
                     ("body", VStr "payload requires object with `key`, `email`, `password`")]])
           (VRef (length h)) "status" = VNum (STATUS_BAD_REQUEST common).
Proof.
  intros Hp He. split.
  - by apply confirmPasswordReset_run_incomplete.
  - by rewrite field_fresh.
Qed.

Lemma confirmPasswordReset_fail_fast_witness :
  let h := [literal [("key", VStr "k"); ("email", VStr "a@b.c"); ("password", VStr "")]] in
  let deps := demo_deps VNull VNull (Rejected VNull) in
  run (confirmPasswordReset demo_common deps 2 (VRef 0)) h
  = (Ok tt,
     State (h ++ [literal
                    [("status", VNum 400);
                     ("body", VStr "payload requires object with `key`, `email`, `password`")]])
           [Called [VRef 1]])
  /\ field (h ++ [literal
                    [("status", VNum 400);
                     ("body", VStr "payload requires object with `key`, `email`, `password`")]])
           (VRef 1) "status" = VNum 400.
Proof.
  intros h deps.
  apply (confirmPasswordReset_fail_fast demo_common deps h (VRef 0)).
  - reflexivity.
  - right. right. vm_compute. reflexivity.
Defined.

(** ** The callbacks given to superagent *)

Lemma or_empty_string s : or_empty (VStr s) = VStr s.
Proof. by destruct s. Qed.

Lemma or_empty_undefined : or_empty VUndef = VStr "".
Proof. reflexivity. Qed.

(** *** Running the monad step by step *)

Lemma bind_ok {A B} (m : M A) (k : A -> M B) s a s' :
  m s = (Ok a, s') -> bind m k s = k a s'.
Proof. unfold bind. by intros ->. Qed.

Lemma bind_throw {A B} (m : M A) (k : A -> M B) s e s' :
  m s = (Throw e, s') -> bind m k s = (Throw e, s').
Proof. unfold bind. by intros ->. Qed.

Lemma js_and_ok a b s x s' :
  a s = (Ok x, s') -> js_and a b s = if truthy x then b s' else (Ok x, s').
Proof. intros H. unfold js_and. rewrite (bind_ok _ _ _ _ _ H). by destruct (truthy x). Qed.

Lemma js_or_ok a b s x s' :
  a s = (Ok x, s') -> js_or a b s = if truthy x then (Ok x, s') else b s'.
Proof. intros H. unfold js_or. rewrite (bind_ok _ _ _ _ _ H). by destruct (truthy x). Qed.

Lemma path1 v k s :
  nullish v = false -> path v [k] s = (Ok (field (st_heap s) v k), s).
Proof. intros H. simpl. by rewrite (bind_ok _ _ _ _ _ (get_defined v k s H)). Qed.

Lemma path2 v k1 k2 s :
  nullish v = false -> nullish (field (st_heap s) v k1) = false ->
  path v [k1; k2] s = (Ok (field (st_heap s) (field (st_heap s) v k1) k2), s).
Proof.
  intros H1 H2. simpl path.
  rewrite (bind_ok _ _ _ _ _ (get_defined v k1 s H1)).
  by rewrite (bind_ok _ _ _ _ _ (get_defined _ k2 s H2)).
Qed.

Lemma path3 v k1 k2 k3 s :
  nullish v = false -> nullish (field (st_heap s) v k1) = false ->
  nullish (field (st_heap s) (field (st_heap s) v k1) k2) = false ->
  path v [k1; k2; k3] s
  = (Ok (field (st_heap s) (field (st_heap s) (field (st_heap s) v k1) k2) k3), s).
Proof.
  intros H1 H2 H3. simpl path.
  rewrite (bind_ok _ _ _ _ _ (get_defined v k1 s H1)).
  rewrite (bind_ok _ _ _ _ _ (get_defined _ k2 s H2)).
  by rewrite (bind_ok _ _ _ _ _ (get_defined _ k3 s H3)).
Qed.

(** [(err.response && err.response.body && err.response.body.k) || ''] *)
Lemma body_chain err k s :
  nullish err = false ->
  js_or (js_and (js_and (get err "response") (path err ["response"; "body"]))
                (path err ["response"; "body"; k]))
        (ret (VStr "")) s
  = (Ok (or_empty (body_field (st_heap s) err k)), s).
Proof.
  intros He. unfold body_field, or_empty.
  set (r1 := field (st_heap s) err "response").
  set (r2 := field (st_heap s) r1 "body").
  pose proof (get_defined err "response" s He) as Hget. fold r1 in Hget.
  destruct (truthy r1) eqn:H1.
  - assert (js_and (get err "response") (path err ["response"; "body"]) s
            = (Ok r2, s)) as Hin.
    { rewrite (js_and_ok _ _ _ _ _ Hget), H1.
      apply path2; [done|]. by apply truthy_not_nullish. }
    destruct (truthy r2) eqn:H2.
    + rewrite (js_or_ok _ _ s (field (st_heap s) r2 k) s).
      * by destruct (truthy (field (st_heap s) r2 k)).
      * rewrite (js_and_ok _ _ _ _ _ Hin), H2.
        apply path3; [done|by apply truthy_not_nullish|by apply truthy_not_nullish].
    + rewrite (js_or_ok _ _ s r2 s).
      * by rewrite H2, (field_of_falsy _ r2 k H2).
      * by rewrite (js_and_ok _ _ _ _ _ Hin), H2.
  - rewrite (js_or_ok _ _ s r1 s).
    + rewrite H1. unfold r2.
      by rewrite (field_of_falsy _ r1 "body" H1).
    + rewrite (js_and_ok _ _ s r1 s); [by rewrite H1|].
      by rewrite (js_and_ok _ _ _ _ _ Hget), H1.
Qed.

(** [(err.response && err.response.error) || ''] *)
Lemma response_error_chain err s :
  nullish err = false ->
  js_or (js_and (get err "response") (path err ["response"; "error"]))
        (ret (VStr "")) s
  = (Ok (or_empty (field (st_heap s) (field (st_heap s) err "response") "error")), s).
Proof.
  intros He. unfold or_empty.
  set (r1 := field (st_heap s) err "response").
  pose proof (get_defined err "response" s He) as Hget. fold r1 in Hget.
  destruct (truthy r1) eqn:H1.
  - rewrite (js_or_ok _ _ s (field (st_heap s) r1 "error") s).
    + by destruct (truthy (field (st_heap s) r1 "error")).
    + rewrite (js_and_ok _ _ _ _ _ Hget), H1.
      apply path2; [done|]. by apply truthy_not_nullish.
  - rewrite (js_or_ok _ _ s r1 s).
    + rewrite H1. by rewrite (field_of_falsy _ r1 "error" H1).
    + by rewrite (js_and_ok _ _ _ _ _ Hget), H1.
Qed.

Lemma set_ref l k x h tr :
  set (VRef l) k x (State h tr) = (Ok tt, State (alter (set_field k x) l h) tr).
Proof. reflexivity. Qed.

Lemma cb_run args h tr :
  cb args (State h tr) = (Ok tt, State h (tr ++ [Called args])).
Proof. reflexivity. Qed.

Lemma signupConfirm_end_error h tr l o res :
  h !! l = Some o ->
  signupConfirm_end (VRef l) res (State h tr)
  = (Ok tt,
     State (<[l := set_field "message" (or_empty (body_field h (VRef l) "reason")) o]> h)
           (tr ++ [Called [VRef l]])).
Proof.
  intros Hl. unfold signupConfirm_end. cbn [nullish negb].
  rewrite (bind_ok _ _ _ _ _ (body_chain (VRef l) "reason" _ eq_refl)).
  rewrite (bind_ok _ _ _ _ _ (set_ref _ _ _ _ _)), cb_run.
  cbn [st_heap]. by rewrite (alter_lookup _ _ _ _ Hl).
Qed.

Lemma custodialSignupConfirm_end_error h tr l o res :
  h !! l = Some o ->
  custodialSignupConfirm_end (VRef l) res (State h tr)
  = (Ok tt,
     State (<[l := set_field "message" (or_empty (body_field h (VRef l) "reason"))
                     (set_field "error" (or_empty (body_field h (VRef l) "error")) o)]> h)
           (tr ++ [Called [VRef l]])).
Proof.
  intros Hl. unfold custodialSignupConfirm_end. cbn [nullish negb].
  rewrite (bind_ok _ _ _ _ _ (body_chain (VRef l) "error" _ eq_refl)).
  rewrite (bind_ok _ _ _ _ _ (set_ref _ _ _ _ _)).
  rewrite (bind_ok _ _ _ _ _ (body_chain (VRef l) "reason" _ eq_refl)).
  rewrite (bind_ok _ _ _ _ _ (set_ref _ _ _ _ _)), cb_run.
  cbn [st_heap]. unfold body_field. rewrite !field_set_other by done.
  fold (body_field h (VRef l) "error") (body_field h (VRef l) "reason").
  rewrite (alter_lookup _ _ _ _ Hl).
  rewrite (alter_lookup _ l (set_field "error" (or_empty (body_field h (VRef l) "error")) o)).
  - by rewrite list_insert_insert_eq.
  - apply list_lookup_insert_eq. by eapply lookup_lt_Some.
Qed.

Lemma confirmPasswordReset_end_error h tr l o res :
  h !! l = Some o ->
  confirmPasswordReset_end (VRef l) res (State h tr)
  = (Ok tt,
     State (<[l := set_field "message"
                     (or_empty (field h (field h (VRef l) "response") "error")) o]> h)
           (tr ++ [Called [VRef l]])).
Proof.
  intros Hl. unfold confirmPasswordReset_end. cbn [nullish negb].
  rewrite (bind_ok _ _ _ _ _ (response_error_chain (VRef l) _ eq_refl)).
  rewrite (bind_ok _ _ _ _ _ (set_ref _ _ _ _ _)), cb_run.
  cbn [st_heap]. by rewrite (alter_lookup _ _ _ _ Hl).
Qed.

(** ** Whole operations over superagent *)

Lemma superagent_end_run deps rq k h tr err res :
  superagent deps rq = (err, res) ->
  superagent_end deps rq k (State h tr) = k err res (State h (tr ++ [Sent rq])).
Proof. unfold superagent_end, bind, emit. simpl. by intros ->. Qed.

Lemma assertArgumentsSize_exact n s : assertArgumentsSize n n s = (Ok tt, s).
Proof. unfold assertArgumentsSize. by rewrite Nat.eqb_refl. Qed.

Lemma alloc_run o h tr :
  alloc o (State h tr) = (Ok (VRef (length h)), State (h ++ [o]) tr).
Proof. reflexivity. Qed.

Lemma read_run {A} (f : heap -> A) h tr : read f (State h tr) = (Ok (f h), State h tr).
Proof. reflexivity. Qed.

(** The payload check of confirmPasswordReset lets a complete payload
    through. *)
Lemma payload_complete payload h tr :
  nullish payload = false ->
  isEmpty h (field h payload "key") = false ->
  isEmpty h (field h payload "email") = false ->
  isEmpty h (field h payload "password") = false ->
  orb_lazy
    (orb_lazy (let* x := get payload "key" in read (fun h => isEmpty h x))
              (let* x := get payload "email" in read (fun h => isEmpty h x)))
    (let* x := get payload "password" in read (fun h => isEmpty h x))
    (State h tr)
  = (Ok false, State h tr).
Proof.
  intros Hp Hk He Hw. unfold orb_lazy.
  assert (forall k, isEmpty h (field h payload k) = false ->
            (let* x := get payload k in read (fun h => isEmpty h x)) (State h tr)
            = (Ok false, State h tr)) as Hone.
  { intros k Hf. rewrite (bind_ok _ _ _ _ _ (get_defined _ _ _ Hp)).
    rewrite read_run. simpl. by rewrite Hf. }
  rewrite (bind_ok _ _ (State h tr) false (State h tr)).
  - by apply Hone.
  - rewrite (bind_ok _ _ _ _ _ (Hone "key" Hk)). by apply Hone.
Qed.

(** ** Responses that are not a transport error *)

Lemma strict_eq_true a : strict_eq a a = true.
Proof. unfold strict_eq. by apply bool_decide_eq_true. Qed.

Lemma strict_eq_false a b : a <> b -> strict_eq a b = false.
Proof. unfold strict_eq. by apply bool_decide_eq_false. Qed.



(** An object of the store that refers to another one: reads along
    the reference are the same after an allocation. *)
Lemma field2_alloc h h' l o lb bo k1 k2 :
  h !! l = Some o -> field h (VRef l) k1 = VRef lb -> h !! lb = Some bo ->
  field (h ++ h') (field (h ++ h') (VRef l) k1) k2 = field h (VRef lb) k2.
Proof.
  intros Hl Hb Hlb.
  by rewrite (field_alloc _ _ _ _ _ Hl), Hb, (field_alloc _ _ _ _ _ Hlb).
Qed.

Section NoTransportError.

Variables (h : heap) (tr : list event) (err res : value).
Hypothesis no_error : nullish err = true.
Hypothesis response : nullish res = false.

Lemma signupConfirm_end_200 :
  field h res "status" = VNum 200 ->
  signupConfirm_end err res (State h tr) = (Ok tt, State h (tr ++ [Called []])).
Proof.
  intros Hst. unfold signupConfirm_end. rewrite no_error. cbn [negb].
  rewrite (bind_ok _ _ _ _ _ (get_defined _ _ _ response)).
  cbn [st_heap]. by rewrite Hst.
Qed.

Lemma signupConfirm_end_other :
  field h res "status" <> VNum 200 ->
  nullish (field h res "body") = false ->
  signupConfirm_end err res (State h tr)
  = (Ok tt,
     State (h ++ [literal [("status", field h res "status");
                           ("message", field h (field h res "body") "reason")]])
           (tr ++ [Called [VRef (length h)]])).
Proof.
  intros Hst Hb. unfold signupConfirm_end. rewrite no_error. cbn [negb].
  rewrite (bind_ok _ _ _ _ _ (get_defined _ _ _ response)).
  cbn [st_heap]. rewrite (strict_eq_false _ _ Hst). cbn [negb].
  rewrite (bind_ok _ _ _ _ _ (get_defined _ _ _ response)).
  rewrite (bind_ok _ _ _ _ _ (path2 _ _ _ (State h _) response Hb)).
  by rewrite (bind_ok _ _ _ _ _ (alloc_run _ _ _)), cb_run.
Qed.

Lemma custodialSignupConfirm_end_200 :
  field h res "status" = VNum 200 ->
  custodialSignupConfirm_end err res (State h tr) = (Ok tt, State h (tr ++ [Called []])).
Proof.
  intros Hst. unfold custodialSignupConfirm_end. rewrite no_error. cbn [negb].
  rewrite (bind_ok _ _ _ _ _ (get_defined _ _ _ response)).
  cbn [st_heap]. by rewrite Hst.
Qed.

Lemma custodialSignupConfirm_end_other :
  field h res "status" <> VNum 200 ->
  nullish (field h res "body") = false ->
  custodialSignupConfirm_end err res (State h tr)
  = (Ok tt,
     State (h ++ [literal [("status", field h res "status");
                           ("error", field h (field h res "body") "error");
                           ("message", field h (field h res "body") "reason")]])
           (tr ++ [Called [VRef (length h)]])).
Proof.
  intros Hst Hb. unfold custodialSignupConfirm_end. rewrite no_error. cbn [negb].
  rewrite (bind_ok _ _ _ _ _ (get_defined _ _ _ response)).
  cbn [st_heap]. rewrite (strict_eq_false _ _ Hst). cbn [negb].
  rewrite (bind_ok _ _ _ _ _ (get_defined _ _ _ response)).
  rewrite (bind_ok _ _ _ _ _ (path2 _ _ _ (State h _) response Hb)).
  rewrite (bind_ok _ _ _ _ _ (path2 _ _ _ (State h _) response Hb)).
  by rewrite (bind_ok _ _ _ _ _ (alloc_run _ _ _)), cb_run.
Qed.

Lemma confirmPasswordReset_end_200 :
  field h res "status" = VNum 200 ->
  confirmPasswordReset_end err res (State h tr) = (Ok tt, State h (tr ++ [Called []])).
Proof.
  intros Hst. unfold confirmPasswordReset_end. rewrite no_error. cbn [negb].
  rewrite (bind_ok _ _ _ _ _ (get_defined _ _ _ response)).
  cbn [st_heap]. by rewrite Hst.
Qed.

Lemma confirmPasswordReset_end_other :
  field h res "status" <> VNum 200 ->
  confirmPasswordReset_end err res (State h tr)
  = (Ok tt,
     State (h ++ [literal [("status", field h res "status");
                           ("message", field h res "error")]])
           (tr ++ [Called [VRef (length h)]])).
Proof.
  intros Hst. unfold confirmPasswordReset_end. rewrite no_error. cbn [negb].
  rewrite (bind_ok _ _ _ _ _ (get_defined _ _ _ response)).
  cbn [st_heap]. rewrite (strict_eq_false _ _ Hst). cbn [negb].
  rewrite (bind_ok _ _ _ _ _ (get_defined _ _ _ response)).
  rewrite (bind_ok _ _ _ _ _ (get_defined _ _ _ response)).
  by rewrite (bind_ok _ _ _ _ _ (alloc_run _ _ _)), cb_run.
Qed.

Lemma invitesReceived_end_200 :
  field h res "status" = VNum 200 ->
  invitesReceived_end err res (State h tr)
  = (Ok tt, State h (tr ++ [Called [VNull; field h res "body"]])).
Proof.
  intros Hst. unfold invitesReceived_end. rewrite no_error. cbn [negb].
  rewrite (bind_ok _ _ _ _ _ (get_defined _ _ _ response)).
  cbn [st_heap]. rewrite Hst, strict_eq_true.
  by rewrite (bind_ok _ _ _ _ _ (get_defined _ _ _ response)), cb_run.
Qed.



End NoTransportError.

(** The operations on a response object [lr] with status [st] and a
    body object [lb], the transport reporting no error. *)
Section ResponseObject.

Variables (common : Common) (deps : Deps) (h : heap) (err : value).
Variables (lr : loc) (ro : object) (lb : loc) (bo : object) (st : value).
Hypothesis no_error : nullish err = true.
Hypothesis response : h !! lr = Some ro.
Hypothesis response_status : field h (VRef lr) "status" = st.
Hypothesis response_body : field h (VRef lr) "body" = VRef lb.
Hypothesis body : h !! lb = Some bo.

Lemma signupConfirm_run_200 id :
  superagent deps (signupConfirm_request common id) = (err, VRef lr) ->
  st = VNum 200 ->
  run (signupConfirm common deps 2 id) h
  = (Ok tt, State h [Sent (signupConfirm_request common id); Called []]).
Proof.
  intros Hrq H200. unfold signupConfirm, run.
  rewrite (bind_ok _ _ _ _ _ (assertArgumentsSize_exact 2 _)).
  rewrite (superagent_end_run _ _ _ _ _ _ _ Hrq).
  rewrite signupConfirm_end_200; try done. by rewrite response_status.
Qed.

Lemma signupConfirm_run_other id :
  superagent deps (signupConfirm_request common id) = (err, VRef lr) ->
  st <> VNum 200 ->
  run (signupConfirm common deps 2 id) h
  = (Ok tt,
     State (h ++ [literal [("status", st); ("message", field h (VRef lb) "reason")]])
           [Sent (signupConfirm_request common id); Called [VRef (length h)]]).
Proof.
  intros Hrq Hne. unfold signupConfirm, run.
  rewrite (bind_ok _ _ _ _ _ (assertArgumentsSize_exact 2 _)).
  rewrite (superagent_end_run _ _ _ _ _ _ _ Hrq).
  rewrite signupConfirm_end_other; try done.
  - by rewrite response_status, response_body.
  - by rewrite response_status.
  - by rewrite response_body.
Qed.

Lemma custodialSignupConfirm_run_200 id birthday password :
  superagent deps (custodialSignupConfirm_request common id (VRef (length h))) = (err, VRef lr) ->
  st = VNum 200 ->
  run (custodialSignupConfirm common deps 4 id birthday password) h
  = (Ok tt,
     State (h ++ [literal [("birthday", birthday); ("password", password)]])
           [Sent (custodialSignupConfirm_request common id (VRef (length h))); Called []]).
Proof.
  intros Hrq H200. unfold custodialSignupConfirm, run.
  rewrite (bind_ok _ _ _ _ _ (assertArgumentsSize_exact 4 _)).
  rewrite (bind_ok _ _ _ _ _ (alloc_run _ _ _)).
  rewrite (superagent_end_run _ _ _ _ _ _ _ Hrq).
  rewrite custodialSignupConfirm_end_200; try done.
  by rewrite (field_alloc _ _ _ _ _ response), response_status.
Qed.

Lemma custodialSignupConfirm_run_other id birthday password :
  superagent deps (custodialSignupConfirm_request common id (VRef (length h))) = (err, VRef lr) ->
  st <> VNum 200 ->
  run (custodialSignupConfirm common deps 4 id birthday password) h
  = (Ok tt,
     State ((h ++ [literal [("birthday", birthday); ("password", password)]])
              ++ [literal [("status", st);
                           ("error", field h (VRef lb) "error");
                           ("message", field h (VRef lb) "reason")]])
           [Sent (custodialSignupConfirm_request common id (VRef (length h)));
            Called [VRef (S (length h))]]).
Proof.
  intros Hrq Hne. unfold custodialSignupConfirm, run.
  rewrite (bind_ok _ _ _ _ _ (assertArgumentsSize_exact 4 _)).
  rewrite (bind_ok _ _ _ _ _ (alloc_run _ _ _)).
  rewrite (superagent_end_run _ _ _ _ _ _ _ Hrq).
  set (sent := literal [("birthday", birthday); ("password", password)]).
  assert (field (h ++ [sent]) (VRef lr) "status" = st) as Hst'
    by (by rewrite (field_alloc _ _ _ _ _ response)).
  assert (field (h ++ [sent]) (VRef lr) "body" = VRef lb) as Hbody'
    by (by rewrite (field_alloc _ _ _ _ _ response)).
  rewrite custodialSignupConfirm_end_other; try done.
  - rewrite Hst', Hbody', !(field_alloc _ _ _ _ _ body).
    by rewrite length_app, Nat.add_1_r.
  - by rewrite Hst'.
  - by rewrite Hbody'.
Qed.

Section CompletePayload.

Variable payload : value.
Hypothesis payload_object : nullish payload = false.
Hypothesis payload_key : isEmpty h (field h payload "key") = false.
Hypothesis payload_email : isEmpty h (field h payload "email") = false.
Hypothesis payload_password : isEmpty h (field h payload "password") = false.

Lemma confirmPasswordReset_run_200 :
  superagent deps (confirmPasswordReset_request common payload) = (err, VRef lr) ->
  st = VNum 200 ->
  run (confirmPasswordReset common deps 2 payload) h
  = (Ok tt, State h [Sent (confirmPasswordReset_request common payload); Called []]).
Proof.
  intros Hrq H200. unfold confirmPasswordReset, run.
  rewrite (bind_ok _ _ _ _ _ (assertArgumentsSize_exact 2 _)).
  rewrite (bind_ok _ _ _ _ _
             (payload_complete _ _ _ payload_object payload_key payload_email payload_password)).
  rewrite (superagent_end_run _ _ _ _ _ _ _ Hrq).
  rewrite confirmPasswordReset_end_200; try done. by rewrite response_status.
Qed.

Lemma confirmPasswordReset_run_other :
  superagent deps (confirmPasswordReset_request common payload) = (err, VRef lr) ->
  st <> VNum 200 ->
  run (confirmPasswordReset common deps 2 payload) h
  = (Ok tt,
     State (h ++ [literal [("status", st); ("message", field h (VRef lr) "error")]])
           [Sent (confirmPasswordReset_request common payload); Called [VRef (length h)]]).
Proof.
  intros Hrq Hne. unfold confirmPasswordReset, run.
  rewrite (bind_ok _ _ _ _ _ (assertArgumentsSize_exact 2 _)).
  rewrite (bind_ok _ _ _ _ _
             (payload_complete _ _ _ payload_object payload_key payload_email payload_password)).
  rewrite (superagent_end_run _ _ _ _ _ _ _ Hrq).
  rewrite confirmPasswordReset_end_other; try done.
  - by rewrite response_status.
  - by rewrite response_status.
Qed.

End CompletePayload.



End ResponseObject.




(** ** List retrieval *)

Lemma invitesReceived_end_error_404 h tr l o res :
  h !! l = Some o -> field h (VRef l) "status" = VNum 404 ->
  invitesReceived_end (VRef l) res (State h tr)
  = (Ok tt, State (h ++ [empty_array]) (tr ++ [Called [VNull; VRef (length h)]])).
Proof.
  intros Hl Hst. unfold invitesReceived_end. cbn [nullish negb].
  rewrite (bind_ok _ _ _ _ _ (get_defined (VRef l) _ _ eq_refl)).
  cbn [st_heap]. rewrite Hst, strict_eq_true.
  by rewrite (bind_ok _ _ _ _ _ (alloc_run _ _ _)), cb_run.
Qed.

(** When the transport reports an error object whose status is not
    404, invitesReceived calls back with one argument: the body of the
    attached response when there is one, else a new [[]]. *)
Lemma invitesReceived_end_error_other h tr l o res :
  h !! l = Some o -> field h (VRef l) "status" <> VNum 404 ->
  invitesReceived_end (VRef l) res (State h tr)
  = if truthy (field h (field h (VRef l) "response") "body")
    then (Ok tt,
          State h (tr ++ [Called [field h (field h (VRef l) "response") "body"]]))
    else (Ok tt,
          State (h ++ [empty_array]) (tr ++ [Called [VRef (length h)]])).
Proof.
  intros Hl Hst. unfold invitesReceived_end. cbn [nullish negb].
  rewrite (bind_ok _ _ _ _ _ (get_defined (VRef l) _ _ eq_refl)).
  cbn [st_heap]. rewrite (strict_eq_false _ _ Hst).
  set (r1 := field h (VRef l) "response").
  pose proof (get_defined (VRef l) "response" (State h tr) eq_refl) as Hget.
  cbn [st_heap] in Hget. fold r1 in Hget.
  destruct (truthy r1) eqn:H1.
  - assert (js_and (get (VRef l) "response") (path (VRef l) ["response"; "body"])
              (State h tr) = (Ok (field h r1 "body"), State h tr)) as Hin.
    { rewrite (js_and_ok _ _ _ _ _ Hget), H1.
      apply (path2 _ _ _ (State h tr)); [done|]. by apply truthy_not_nullish. }
    unfold bind at 1. rewrite (js_or_ok _ _ _ _ _ Hin).
    by destruct (truthy (field h r1 "body")).
  - assert (js_and (get (VRef l) "response") (path (VRef l) ["response"; "body"])
              (State h tr) = (Ok r1, State h tr)) as Hin
      by (by rewrite (js_and_ok _ _ _ _ _ Hget), H1).
    unfold bind at 1. rewrite (js_or_ok _ _ _ _ _ Hin), H1.
    by rewrite (field_of_falsy _ r1 "body" H1).
Qed.

(** ** Errors reported by the transport *)

(** C5 (as the code has it), for the operations that call superagent
    themselves: when the transport reports an error object,
    signupConfirm, custodialSignupConfirm and confirmPasswordReset hand
    that same object to the callback, mutated in place.
    signupConfirm sets its [message] to the [reason] of the attached
    response's body when that is there and truthy, else to the empty
    string; custodialSignupConfirm does the same and first sets [error]
    from the body's [error] in the same way; confirmPasswordReset sets
    [message] from the [error] property of the attached response
    itself, else the empty string, and does not look at the body's
    [reason].  invitesReceived does not hand the error object on and
    sets no [message]: when the error's status is 404 the callback
    receives [(null, [])], otherwise it receives one argument, the
    body of the attached response when that is truthy, else a new
    [[]]; the error object stays as it was. *)
Theorem transport_error_augmented common deps h l o res :
  h !! l = Some o ->
  (forall id,
     let rq := Request PUT (makeAPIUrl common ("/confirm/accept/signup/" +:+ id))
                 [] None None in
     superagent deps rq = (VRef l, res) ->
     run (signupConfirm common deps 2 id) h
     = (Ok tt,
        State (<[l := set_field "message" (or_empty (body_field h (VRef l) "reason")) o]> h)
              [Sent rq; Called [VRef l]]))
  /\ (forall id birthday password,
     let h' := h ++ [literal [("birthday", birthday); ("password", password)]] in
     let rq := Request PUT (makeAPIUrl common ("/confirm/accept/signup/" +:+ id))
                 [] (Some (VRef (length h))) None in
     superagent deps rq = (VRef l, res) ->
     run (custodialSignupConfirm common deps 4 id birthday password) h
     = (Ok tt,
        State (<[l := set_field "message" (or_empty (body_field h' (VRef l) "reason"))
                        (set_field "error" (or_empty (body_field h' (VRef l) "error")) o)]> h')
              [Sent rq; Called [VRef l]]))
  /\ (forall payload,
     let rq := Request PUT (makeAPIUrl common "/confirm/accept/forgot")
                 [] (Some payload) None in
     nullish payload = false ->
     isEmpty h (field h payload "key") = false ->
     isEmpty h (field h payload "email") = false ->
     isEmpty h (field h payload "password") = false ->
     superagent deps rq = (VRef l, res) ->
     run (confirmPasswordReset common deps 2 payload) h
     = (Ok tt,
        State (<[l := set_field "message"
                        (or_empty (field h (field h (VRef l) "response") "error")) o]> h)
              [Sent rq; Called [VRef l]]))
  /\ (forall id,
     let rq := Request GET (makeAPIUrl common ("/confirm/invitations/" +:+ id))
                 [(SESSION_TOKEN_HEADER common, getToken common)] None None in
     superagent deps rq = (VRef l, res) ->
     (field h (VRef l) "status" = VNum 404 ->
      run (invitesReceived common deps 2 id) h
      = (Ok tt,
         State (h ++ [empty_array]) [Sent rq; Called [VNull; VRef (length h)]]))
     /\ (field h (VRef l) "status" <> VNum 404 ->
         run (invitesReceived common deps 2 id) h
         = if truthy (field h (field h (VRef l) "response") "body")
           then (Ok tt,
                 State h [Sent rq; Called [field h (field h (VRef l) "response") "body"]])
           else (Ok tt,
                 State (h ++ [empty_array]) [Sent rq; Called [VRef (length h)]]))).
Proof.
  intros Hl. split; [|split; [|split]].
  - intros id rq Hrq. unfold signupConfirm, run.
    rewrite (bind_ok _ _ _ _ _ (assertArgumentsSize_exact 2 _)).
    rewrite (superagent_end_run _ _ _ _ _ _ _ Hrq).
    by rewrite (signupConfirm_end_error _ _ _ _ _ Hl).
  - intros id birthday password h' rq Hrq. unfold custodialSignupConfirm, run.
    rewrite (bind_ok _ _ _ _ _ (assertArgumentsSize_exact 4 _)).
    rewrite (bind_ok _ _ _ _ _ (alloc_run _ _ _)).
    rewrite (superagent_end_run _ _ _ _ _ _ _ Hrq).
    by rewrite (custodialSignupConfirm_end_error _ _ l o res (lookup_app_l_Some _ _ _ _ Hl)).
  - intros payload rq Hp Hk He Hw Hrq. unfold confirmPasswordReset, run.
    rewrite (bind_ok _ _ _ _ _ (assertArgumentsSize_exact 2 _)).
    rewrite (bind_ok _ _ _ _ _ (payload_complete _ _ _ Hp Hk He Hw)).
    rewrite (superagent_end_run _ _ _ _ _ _ _ Hrq).
    by rewrite (confirmPasswordReset_end_error _ _ _ _ _ Hl).
  - intros id rq Hrq. split; intros Hst; unfold invitesReceived, run;
      rewrite (bind_ok _ _ _ _ _ (assertArgumentsSize_exact 2 _));
      rewrite (superagent_end_run _ _ _ _ _ _ _ Hrq).
    + by rewrite (invitesReceived_end_error_404 _ _ _ _ _ Hl Hst).
    + by rewrite (invitesReceived_end_error_other _ _ _ _ _ Hl Hst).
Qed.

Lemma transport_error_augmented_witness :
  let deps := demo_deps (VRef 0) VUndef (Rejected VNull) in
  let o := Obj (KError "Error") {[ "message" := VStr "Not Found"; "response" := VRef 1 ]} in
  run (signupConfirm demo_common deps 2 "s1") failed_with_reason
  = (Ok tt,
     State (<[0 := set_field "message" (VStr "expired") o]> failed_with_reason)
           [Sent (Request PUT "https://api.example.org/confirm/accept/signup/s1" [] None None);
            Called [VRef 0]])
  /\ run (confirmPasswordReset demo_common deps 2 (VRef 3)) failed_with_reason
  = (Ok tt,
     State (<[0 := set_field "message" (VStr "") o]> failed_with_reason)
           [Sent (Request PUT "https://api.example.org/confirm/accept/forgot" []
                    (Some (VRef 3)) None);
            Called [VRef 0]])
  /\ run (invitesReceived demo_common deps 2 "u1") failed_with_reason
  = (Ok tt,
     State failed_with_reason
           [Sent (Request GET "https://api.example.org/confirm/invitations/u1"
                    [("x-tidepool-session-token", VStr "token-1")] None None);
            Called [VRef 2]]).
Proof.
  intros deps o.
  destruct (transport_error_augmented demo_common deps failed_with_reason 0 o VUndef eq_refl)
    as (H1 & _ & H3 & H4).
  split; [|split].
  - apply (H1 "s1"). reflexivity.
  - apply (H3 (VRef 3)); reflexivity.
  - destruct (H4 "u1" eq_refl) as [_ H]. apply H. discriminate.
Defined.

(** C5, counterexample: the transport's error carries a partial
    response whose body has the reason ["expired"]; confirmPasswordReset
    hands the error object on with the empty string as [message], not
    the reason. *)
Lemma confirmPasswordReset_error_ignores_reason :
  let deps := demo_deps (VRef 0) VUndef (Rejected VNull) in
  body_field failed_with_reason (VRef 0) "reason" = VStr "expired"
  /\ exists s',
       run (confirmPasswordReset demo_common deps 2 (VRef 3)) failed_with_reason = (Ok tt, s')
       /\ calls (st_trace s') = [[VRef 0]]
       /\ field (st_heap s') (VRef 0) "message" = VStr ""
       /\ field (st_heap s') (VRef 0) "message" <> VStr "expired".
Proof.
  intros deps. split; [reflexivity|].
  eexists. split; [vm_compute; reflexivity|].
  split; [reflexivity|]. split; [reflexivity|]. discriminate.
Qed.




(** ** Whole operations over fetch *)

Lemma fetch_then_catch_run deps rq f g h tr :
  fetch_then_catch deps rq f g (State h tr)
  = match fetch deps rq with
    | Resolved r => try_catch (f r) g (State h (tr ++ [Sent rq]))
    | Rejected reason => g reason (State h (tr ++ [Sent rq]))
    end.
Proof. unfold fetch_then_catch, bind, emit. simpl. by destruct (fetch deps rq). Qed.

Lemma signupStart_run common deps h s lang :
  s <> "" ->
  let rq := Request POST (makeAPIUrl common ("/confirm/send/signup/" +:+ s))
              [("x-tidepool-session-token", getToken common);
               ("x-tidepool-trace-session", getSessionTrace common);
               ("x-tidepool-language", default_param lang (VStr "en"))]
              None (Some "no-cache") in
  run (signupStart common deps (VStr s) lang) h
  = signupStart_outcome h rq (fetch deps rq).
Proof.
  intros Hs rq. unfold signupStart, run.
  rewrite (bind_ok _ _ _ _ _ (guard_good h s Hs)).
  cbn [to_string]. fold rq. rewrite fetch_then_catch_run.
  unfold signupStart_outcome. destruct (fetch deps rq) as [r|reason]; [|done].
  unfold try_catch. by destruct (ok r).
Qed.

Lemma resend_then_run h tr (r : response) :
  try_catch
    (if ok r then cb [VNull]
     else let* t := await_text r in
          let* d := alloc (literal [("status", VNum (status r)); ("message", t)]) in
          cb [d])
    (fun reason => cb [reason]) (State h tr)
  = if ok r then (Ok tt, State h (tr ++ [Called [VNull]]))
    else match text r with
         | inl t =>
             (Ok tt,
              State (h ++ [literal [("status", VNum (status r)); ("message", VStr t)]])
                    (tr ++ [Called [VRef (length h)]]))
         | inr reason => (Ok tt, State h (tr ++ [Called [reason]]))
         end.
Proof.
  unfold try_catch, await_text. destruct (ok r); [done|].
  by destruct (text r).
Qed.

Lemma signupResend_run common deps h s lang :
  s <> "" ->
  let rq := Request POST (makeAPIUrl common ("/confirm/resend/signup/" +:+ s))
              [("x-tidepool-trace-session", getSessionTrace common);
               ("x-tidepool-language", default_param lang (VStr "en"))]
              None (Some "no-cache") in
  run (signupResend common deps (VStr s) lang) h
  = resend_outcome h rq (fetch deps rq).
Proof.
  intros Hs rq. unfold signupResend, run.
  rewrite (bind_ok _ _ _ _ _ (guard_good h s Hs)).
  cbn [to_string]. fold rq. rewrite fetch_then_catch_run.
  unfold resend_outcome. destruct (fetch deps rq) as [r|reason]; [|done].
  by rewrite resend_then_run.
Qed.

Lemma requestPasswordReset_run common deps h s info lang :
  s <> "" ->
  let rq := Request POST
              (makeAPIUrl common
                 ("/confirm/send/forgot/" +:+ s
                    +:+ (if truthy (default_param info (VBool true))
                         then "?info=ok" else "")))
              [("x-tidepool-trace-session", getSessionTrace common);
               ("x-tidepool-language", default_param lang (VStr "en"))]
              None (Some "no-cache") in
  run (requestPasswordReset common deps (VStr s) info lang) h
  = resend_outcome h rq (fetch deps rq).
Proof.
  intros Hs rq. unfold requestPasswordReset, run.
  rewrite (bind_ok _ _ _ _ _ (guard_good h s Hs)).
  cbn [to_string]. fold rq. rewrite fetch_then_catch_run.
  unfold resend_outcome. destruct (fetch deps rq) as [r|reason]; [|done].
  by rewrite resend_then_run.
Qed.

(** ** The signupStart scenario *)

(** C7 (as the code has it): [signupStart("user123", "fr", cb)] issues
    a POST to the API URL of [/confirm/send/signup/user123] with the
    header [x-tidepool-language] set to ["fr"]; on a 204 response the
    callback is called with the single argument [null]; on a 400
    response it is called with a new [Error] whose message is
    ["Invalid HTTP response 400"]. *)
Theorem signupStart_scenario common deps h t :
  let rq := Request POST (makeAPIUrl common "/confirm/send/signup/user123")
              [("x-tidepool-session-token", getToken common);
               ("x-tidepool-trace-session", getSessionTrace common);
               ("x-tidepool-language", VStr "fr")]
              None (Some "no-cache") in
  (fetch deps rq = Resolved (Response true 204 t) ->
   run (signupStart common deps (VStr "user123") (VStr "fr")) h
   = (Ok tt, State h [Sent rq; Called [VNull]]))
  /\ (fetch deps rq = Resolved (Response false 400 t) ->
      run (signupStart common deps (VStr "user123") (VStr "fr")) h
      = (Ok tt,
         State (h ++ [error_object "Error" "Invalid HTTP response 400"])
               [Sent rq; Called [VRef (length h)]])).
Proof.
  intros rq.
  assert (run (signupStart common deps (VStr "user123") (VStr "fr")) h
          = signupStart_outcome h rq (fetch deps rq)) as Hrun
    by exact (signupStart_run common deps h "user123" (VStr "fr") ltac:(done)).
  split; intros Hf; rewrite Hrun, Hf; reflexivity.
Qed.

Lemma signupStart_scenario_witness :
  let rq := Request POST "https://api.example.org/confirm/send/signup/user123"
              [("x-tidepool-session-token", VStr "token-1");
               ("x-tidepool-trace-session", VStr "trace-1");
               ("x-tidepool-language", VStr "fr")]
              None (Some "no-cache") in
  run (signupStart demo_common
         (demo_deps VNull VNull (Resolved (standard_response 204 "")))
         (VStr "user123") (VStr "fr")) []
  = (Ok tt, State [] [Sent rq; Called [VNull]])
  /\ run (signupStart demo_common
            (demo_deps VNull VNull (Resolved (standard_response 400 "")))
            (VStr "user123") (VStr "fr")) []
  = (Ok tt,
     State [error_object "Error" "Invalid HTTP response 400"]
           [Sent rq; Called [VRef 0]]).
Proof.
  intros rq. split.
  - apply (signupStart_scenario demo_common
             (demo_deps VNull VNull (Resolved (standard_response 204 ""))) [] (inl "")).
    reflexivity.
  - apply (signupStart_scenario demo_common
             (demo_deps VNull VNull (Resolved (standard_response 400 ""))) [] (inl "")).
    reflexivity.
Defined.

(** C7, counterexample: on the 204 response the callback is not called
    with no arguments, it is called with one argument, [null]. *)
Lemma signupStart_204_calls_back_with_null :
  let deps := demo_deps VNull VNull (Resolved (standard_response 204 "")) in
  exists s',
    run (signupStart demo_common deps (VStr "user123") (VStr "fr")) [] = (Ok tt, s')
    /\ calls (st_trace s') = [[VNull]]
    /\ calls (st_trace s') <> [[]].
Proof.
  intros deps. eexists. split; [vm_compute; reflexivity|].
  split; [reflexivity|discriminate].
Qed.

(** ** Headers of the signup and reset requests *)

Lemma signupStart_outcome_requests h rq a :
  requests (st_trace (snd (signupStart_outcome h rq a))) = [rq].
Proof. destruct a as [r|reason]; simpl; [|done]. by destruct (ok r). Qed.

Lemma resend_outcome_requests h rq a :
  requests (st_trace (snd (resend_outcome h rq a))) = [rq].
Proof.
  destruct a as [r|reason]; simpl; [|done].
  destruct (ok r); [done|]. by destruct (text r).
Qed.

(** C8 (as the code has it): each signup/reset operation issues one
    request.  signupStart attaches the three headers
    [x-tidepool-session-token], [x-tidepool-trace-session] and
    [x-tidepool-language], carrying the session token, the trace id and
    the language; signupResend and requestPasswordReset attach the
    trace and language headers only, without a session token. *)
Theorem signup_reset_headers common deps h s lang info :
  s <> "" ->
  map rheaders (requests (st_trace (snd (run (signupStart common deps (VStr s) lang) h))))
  = [[("x-tidepool-session-token", getToken common);
      ("x-tidepool-trace-session", getSessionTrace common);
      ("x-tidepool-language", default_param lang (VStr "en"))]]
  /\ map rheaders (requests (st_trace (snd (run (signupResend common deps (VStr s) lang) h))))
  = [[("x-tidepool-trace-session", getSessionTrace common);
      ("x-tidepool-language", default_param lang (VStr "en"))]]
  /\ map rheaders
       (requests (st_trace (snd (run (requestPasswordReset common deps (VStr s) info lang) h))))
  = [[("x-tidepool-trace-session", getSessionTrace common);
      ("x-tidepool-language", default_param lang (VStr "en"))]].
Proof.
  intros Hs. split; [|split].
  - rewrite (signupStart_run _ _ _ _ _ Hs). cbn zeta.
    by rewrite signupStart_outcome_requests.
  - rewrite (signupResend_run _ _ _ _ _ Hs). cbn zeta.
    by rewrite resend_outcome_requests.
  - rewrite (requestPasswordReset_run _ _ _ _ _ _ Hs). cbn zeta.
    by rewrite resend_outcome_requests.
Qed.

Lemma signup_reset_headers_witness :
  let deps := demo_deps VNull VNull (Resolved (standard_response 200 "")) in
  map rheaders
    (requests (st_trace (snd (run (signupStart demo_common deps (VStr "u1") (VStr "fr")) []))))
  = [[("x-tidepool-session-token", VStr "token-1");
      ("x-tidepool-trace-session", VStr "trace-1");
      ("x-tidepool-language", VStr "fr")]]
  /\ map rheaders
       (requests (st_trace (snd (run (signupResend demo_common deps (VStr "u1") (VStr "fr")) []))))
  = [[("x-tidepool-trace-session", VStr "trace-1");
      ("x-tidepool-language", VStr "fr")]]
  /\ map rheaders
       (requests (st_trace (snd (run (requestPasswordReset demo_common deps (VStr "u1")
                                        VUndef (VStr "fr")) []))))
  = [[("x-tidepool-trace-session", VStr "trace-1");
      ("x-tidepool-language", VStr "fr")]].
Proof.
  intros deps.
  apply (signup_reset_headers demo_common deps [] "u1" (VStr "fr") VUndef).
  discriminate.
Defined.

(** C8, counterexample: the request of signupResend has no
    [x-tidepool-session-token] header. *)
Lemma signupResend_sends_no_session_token :
  let deps := demo_deps VNull VNull (Resolved (standard_response 200 "")) in
  exists rq,
    requests (st_trace (snd (run (signupResend demo_common deps (VStr "a@b.c") (VStr "fr")) [])))
    = [rq]
    /\ ~ In "x-tidepool-session-token" (map fst (rheaders rq)).
Proof.
  intros deps. eexists. split; [vm_compute; reflexivity|].
  simpl. intros [H|[H|[]]]; discriminate.
Qed.

(** ** The [info] flag of requestPasswordReset *)

Lemma append_empty_r (s : string) : s +:+ "" = s.
Proof. induction s as [|c s IH]; [done|]. change (String c (s +:+ "") = String c s). by rewrite IH. Qed.

Lemma resend_outcome_with_url h rq rq' a :
  with_url "" rq = with_url "" rq' ->
  fst (resend_outcome h rq a) = fst (resend_outcome h rq' a)
  /\ st_heap (snd (resend_outcome h rq a)) = st_heap (snd (resend_outcome h rq' a))
  /\ map (event_with_url "") (st_trace (snd (resend_outcome h rq a)))
     = map (event_with_url "") (st_trace (snd (resend_outcome h rq' a))).
Proof.
  intros Hu. destruct rq, rq'. unfold with_url in Hu; simpl in Hu.
  injection Hu as -> -> -> ->.
  destruct a as [r|reason]; simpl; [|done].
  destruct (ok r); [done|]. by destruct (text r).
Qed.

Lemma resend_outcome_same_answer deps h rq rq' :
  (forall rq rq', with_url "" rq = with_url "" rq' -> fetch deps rq = fetch deps rq') ->
  with_url "" rq = with_url "" rq' ->
  fst (resend_outcome h rq (fetch deps rq)) = fst (resend_outcome h rq' (fetch deps rq'))
  /\ st_heap (snd (resend_outcome h rq (fetch deps rq)))
     = st_heap (snd (resend_outcome h rq' (fetch deps rq')))
  /\ map (event_with_url "") (st_trace (snd (resend_outcome h rq (fetch deps rq))))
     = map (event_with_url "") (st_trace (snd (resend_outcome h rq' (fetch deps rq')))).
Proof.
  intros Hdeps Hu. rewrite (Hdeps rq rq' Hu). by apply resend_outcome_with_url.
Qed.

(** C10: with [info] true, or left out so that it defaults to true,
    requestPasswordReset posts to [/confirm/send/forgot/<email>?info=ok];
    with [info] false it posts to [/confirm/send/forgot/<email>], without
    query string.  The flag reaches nothing but the URL: against a
    transport whose answer does not depend on the URL, two calls that
    differ only in [info] end with the same result, the same store and
    the same trace once the URLs are left out. *)
Theorem requestPasswordReset_info common deps h s lang :
  s <> "" ->
  let hdrs := [("x-tidepool-trace-session", getSessionTrace common);
               ("x-tidepool-language", default_param lang (VStr "en"))] in
  (forall info, info = VBool true \/ info = VUndef ->
     requests (st_trace (snd (run (requestPasswordReset common deps (VStr s) info lang) h)))
     = [Request POST (makeAPIUrl common ("/confirm/send/forgot/" +:+ s +:+ "?info=ok"))
          hdrs None (Some "no-cache")])
  /\ requests (st_trace (snd (run (requestPasswordReset common deps (VStr s) (VBool false) lang) h)))
     = [Request POST (makeAPIUrl common ("/confirm/send/forgot/" +:+ s))
          hdrs None (Some "no-cache")]
  /\ (forall info1 info2,
        (forall rq rq', with_url "" rq = with_url "" rq' -> fetch deps rq = fetch deps rq') ->
        let out1 := run (requestPasswordReset common deps (VStr s) info1 lang) h in
        let out2 := run (requestPasswordReset common deps (VStr s) info2 lang) h in
        fst out1 = fst out2
        /\ st_heap (snd out1) = st_heap (snd out2)
        /\ map (event_with_url "") (st_trace (snd out1))
           = map (event_with_url "") (st_trace (snd out2))).
Proof.
  intros Hs hdrs. split; [|split].
  - intros info Hi. rewrite (requestPasswordReset_run _ _ _ _ _ _ Hs). cbn zeta.
    rewrite resend_outcome_requests. by destruct Hi as [-> | ->].
  - rewrite (requestPasswordReset_run _ _ _ _ _ _ Hs). cbn zeta.
    rewrite resend_outcome_requests. cbn [default_param truthy].
    by rewrite append_empty_r.
  - intros info1 info2 Hdeps out1 out2. unfold out1, out2.
    rewrite !(requestPasswordReset_run _ _ _ _ _ _ Hs). cbn zeta.
    by apply resend_outcome_same_answer.
Qed.

Lemma requestPasswordReset_info_witness :
  let deps := demo_deps VNull VNull (Resolved (standard_response 500 "down")) in
  let hdrs := [("x-tidepool-trace-session", VStr "trace-1");
               ("x-tidepool-language", VStr "en")] in
  requests (st_trace (snd (run (requestPasswordReset demo_common deps (VStr "a@b.c")
                                  VUndef VUndef) [])))
  = [Request POST "https://api.example.org/confirm/send/forgot/a@b.c?info=ok"
       hdrs None (Some "no-cache")]
  /\ requests (st_trace (snd (run (requestPasswordReset demo_common deps (VStr "a@b.c")
                                     (VBool false) VUndef) [])))
  = [Request POST "https://api.example.org/confirm/send/forgot/a@b.c"
       hdrs None (Some "no-cache")]
  /\ (let out1 := run (requestPasswordReset demo_common deps (VStr "a@b.c")
                         (VBool true) VUndef) [] in
      let out2 := run (requestPasswordReset demo_common deps (VStr "a@b.c")
                         (VBool false) VUndef) [] in
      fst out1 = fst out2
      /\ st_heap (snd out1) = st_heap (snd out2)
      /\ map (event_with_url "") (st_trace (snd out1))
         = map (event_with_url "") (st_trace (snd out2))).
Proof.
  intros deps hdrs.
  destruct (requestPasswordReset_info demo_common deps [] "a@b.c" VUndef ltac:(discriminate))
    as (H1 & H2 & H3).
  split; [|split].
  - apply (H1 VUndef). right. reflexivity.
  - exact H2.
  - apply (H3 (VBool true) (VBool false)). intros rq rq' _. reflexivity.
Defined.

(** ** Which answers count as success *)







(** ** The shape of the error values *)

(** C9 (as the code has it): the error values delivered on an
    application-level failure do not share one shape.  signupResend and
    requestPasswordReset deliver a normalized descriptor: [status] is
    the response's status and [message] the response's text.
    signupConfirm, custodialSignupConfirm and confirmPasswordReset
    deliver on a status other than 200 an object with [status] and
    [message] (custodialSignupConfirm also [error]), the message being
    whatever the response holds ([body.reason], for confirmPasswordReset
    the response's [error]).  The fail-fast object of
    confirmPasswordReset has [status] and [body] and no [message].  The
    [Error] of signupStart has a string [message] and no [status]. *)
Theorem error_value_shapes common deps h err lr ro lb bo st :
  nullish err = true ->
  h !! lr = Some ro ->
  field h (VRef lr) "status" = st -> st <> VNum 200 ->
  field h (VRef lr) "body" = VRef lb -> h !! lb = Some bo ->
  (forall s lang r t,
     s <> "" -> ok r = false -> text r = inl t ->
     (fetch deps (signupResend_request common s lang) = Resolved r ->
      let s' := snd (run (signupResend common deps (VStr s) lang) h) in
      calls (st_trace s') = [[VRef (length h)]]
      /\ field (st_heap s') (VRef (length h)) "status" = VNum (status r)
      /\ field (st_heap s') (VRef (length h)) "message" = VStr t
      /\ is_descriptor (st_heap s') (VRef (length h)) = true)
     /\ (forall info,
         fetch deps (requestPasswordReset_request common s info lang) = Resolved r ->
         let s' := snd (run (requestPasswordReset common deps (VStr s) info lang) h) in
         calls (st_trace s') = [[VRef (length h)]]
         /\ field (st_heap s') (VRef (length h)) "status" = VNum (status r)
         /\ field (st_heap s') (VRef (length h)) "message" = VStr t
         /\ is_descriptor (st_heap s') (VRef (length h)) = true))
  /\ (forall id,
     superagent deps (signupConfirm_request common id) = (err, VRef lr) ->
     let s' := snd (run (signupConfirm common deps 2 id) h) in
     calls (st_trace s') = [[VRef (length h)]]
     /\ field (st_heap s') (VRef (length h)) "status" = st
     /\ field (st_heap s') (VRef (length h)) "message" = field h (VRef lb) "reason")
  /\ (forall id birthday password,
     superagent deps (custodialSignupConfirm_request common id (VRef (length h)))
     = (err, VRef lr) ->
     let s' := snd (run (custodialSignupConfirm common deps 4 id birthday password) h) in
     calls (st_trace s') = [[VRef (S (length h))]]
     /\ field (st_heap s') (VRef (S (length h))) "status" = st
     /\ field (st_heap s') (VRef (S (length h))) "error" = field h (VRef lb) "error"
     /\ field (st_heap s') (VRef (S (length h))) "message" = field h (VRef lb) "reason")
  /\ (forall payload,
     nullish payload = false ->
     isEmpty h (field h payload "key") = false ->
     isEmpty h (field h payload "email") = false ->
     isEmpty h (field h payload "password") = false ->
     superagent deps (confirmPasswordReset_request common payload) = (err, VRef lr) ->
     let s' := snd (run (confirmPasswordReset common deps 2 payload) h) in
     calls (st_trace s') = [[VRef (length h)]]
     /\ field (st_heap s') (VRef (length h)) "status" = st
     /\ field (st_heap s') (VRef (length h)) "message" = field h (VRef lr) "error")
  /\ (forall payload,
     nullish payload = false ->
     isEmpty h (field h payload "key") = true
     \/ isEmpty h (field h payload "email") = true
     \/ isEmpty h (field h payload "password") = true ->
     let s' := snd (run (confirmPasswordReset common deps 2 payload) h) in
     calls (st_trace s') = [[VRef (length h)]]
     /\ field (st_heap s') (VRef (length h)) "status" = VNum (STATUS_BAD_REQUEST common)
     /\ field (st_heap s') (VRef (length h)) "body"
        = VStr "payload requires object with `key`, `email`, `password`"
     /\ field (st_heap s') (VRef (length h)) "message" = VUndef
     /\ is_descriptor (st_heap s') (VRef (length h)) = false)
  /\ (forall s lang r,
     s <> "" -> ok r = false ->
     fetch deps (signupStart_request common s lang) = Resolved r ->
     let s' := snd (run (signupStart common deps (VStr s) lang) h) in
     calls (st_trace s') = [[VRef (length h)]]
     /\ st_heap s' !! length h
        = Some (error_object "Error" ("Invalid HTTP response " +:+ pretty (status r)))
     /\ field (st_heap s') (VRef (length h)) "message"
        = VStr ("Invalid HTTP response " +:+ pretty (status r))
     /\ field (st_heap s') (VRef (length h)) "status" = VUndef
     /\ is_descriptor (st_heap s') (VRef (length h)) = false).
Proof.
  intros Herr Hlr Hst Hne Hbody Hlb.
  split; [|split; [|split; [|split; [|split]]]].
  - intros s lang r t Hs Hok Ht. split.
    + intros Hf s'. unfold s'. rewrite (signupResend_run _ _ _ _ _ Hs). cbn zeta.
      unfold signupResend_request in Hf. rewrite Hf.
      unfold resend_outcome. rewrite Hok, Ht. cbn [snd st_heap st_trace].
      unfold is_descriptor. rewrite !field_fresh. by repeat split.
    + intros info Hf s'. unfold s'. rewrite (requestPasswordReset_run _ _ _ _ _ _ Hs). cbn zeta.
      unfold requestPasswordReset_request in Hf. rewrite Hf.
      unfold resend_outcome. rewrite Hok, Ht. cbn [snd st_heap st_trace].
      unfold is_descriptor. rewrite !field_fresh. by repeat split.
  - intros id Hrq s'. unfold s'.
    rewrite (signupConfirm_run_other common deps h err lr lb st Herr Hst Hbody id Hrq Hne).
    cbn [snd st_heap st_trace]. rewrite !field_fresh. by repeat split.
  - intros id birthday password Hrq s'. unfold s'.
    rewrite (custodialSignupConfirm_run_other common deps h err lr ro lb bo st
               Herr Hlr Hst Hbody Hlb id birthday password Hrq Hne).
    cbn [snd st_heap st_trace].
    replace (S (length h))
      with (length (h ++ [literal [("birthday", birthday); ("password", password)]]))
      by (by rewrite length_app, Nat.add_1_r).
    rewrite !field_fresh. by repeat split.
  - intros payload Hp Hk He Hw Hrq s'. unfold s'.
    rewrite (confirmPasswordReset_run_other common deps h err lr st Herr Hst
               payload Hp Hk He Hw Hrq Hne).
    cbn [snd st_heap st_trace]. rewrite !field_fresh. by repeat split.
  - intros payload Hp Hi s'. unfold s'.
    rewrite (confirmPasswordReset_run_incomplete common deps h payload Hp Hi).
    cbn [snd st_heap st_trace]. unfold is_descriptor. rewrite !field_fresh.
    by repeat split.
  - intros s lang r Hs Hok Hf s'. unfold s'.
    rewrite (signupStart_run _ _ _ _ _ Hs). cbn zeta.
    unfold signupStart_request in Hf. rewrite Hf.
    unfold signupStart_outcome. rewrite Hok. cbn [snd st_heap st_trace].
    unfold is_descriptor. rewrite !field_fresh, list_lookup_middle by done.
    by repeat split.
Qed.

Lemma error_value_shapes_witness :
  let deps := demo_deps VUndef (VRef 0) (Resolved (standard_response 500 "down")) in
  let h := server_error_with_reason in
  (let s' := snd (run (signupResend demo_common deps (VStr "a@b.c") VUndef) h) in
   calls (st_trace s') = [[VRef 3]]
   /\ field (st_heap s') (VRef 3) "status" = VNum 500
   /\ field (st_heap s') (VRef 3) "message" = VStr "down"
   /\ is_descriptor (st_heap s') (VRef 3) = true)
  /\ (let s' := snd (run (signupConfirm demo_common deps 2 "s1") h) in
      calls (st_trace s') = [[VRef 3]]
      /\ field (st_heap s') (VRef 3) "status" = VNum 500
      /\ field (st_heap s') (VRef 3) "message" = VStr "boom")
  /\ (let s' := snd (run (signupStart demo_common deps (VStr "u1") VUndef) h) in
      calls (st_trace s') = [[VRef 3]]
      /\ st_heap s' !! 3 = Some (error_object "Error" "Invalid HTTP response 500")
      /\ field (st_heap s') (VRef 3) "message" = VStr "Invalid HTTP response 500"
      /\ field (st_heap s') (VRef 3) "status" = VUndef
      /\ is_descriptor (st_heap s') (VRef 3) = false).
Proof.
  intros deps h.
  destruct (error_value_shapes demo_common deps h VUndef 0
              (literal [("status", VNum 500); ("body", VRef 1); ("error", VBool true)])
              1 (literal [("reason", VStr "boom"); ("error", VStr "E1")])
              (VNum 500) eq_refl eq_refl eq_refl ltac:(discriminate) eq_refl eq_refl)
    as (H1 & H2 & _ & _ & _ & H6).
  split; [|split].
  - destruct (H1 "a@b.c" VUndef (standard_response 500 "down") "down"
                ltac:(discriminate) eq_refl eq_refl) as [Hr _].
    apply Hr. reflexivity.
  - apply (H2 "s1"). reflexivity.
  - apply (H6 "u1" VUndef (standard_response 500 "down")); [discriminate|reflexivity..].
Defined.

(** C9, counterexample: on a 400 response signupStart delivers an
    [Error] that has no [status] property; and the object
    confirmPasswordReset delivers when it fails fast has no [message]
    property.  Neither is a normalized descriptor. *)
Lemma error_values_without_status_or_message :
  (let deps := demo_deps VNull VNull (Resolved (standard_response 400 "")) in
   exists s',
     run (signupStart demo_common deps (VStr "user123") (VStr "fr")) [] = (Ok tt, s')
     /\ calls (st_trace s') = [[VRef 0]]
     /\ (exists o, st_heap s' !! 0 = Some o /\ props o !! "status" = None)
     /\ is_descriptor (st_heap s') (VRef 0) = false)
  /\ (let deps := demo_deps VNull VNull (Rejected VNull) in
      let h := [literal [("key", VStr "k1"); ("email", VStr "")]] in
      exists s',
        run (confirmPasswordReset demo_common deps 2 (VRef 0)) h = (Ok tt, s')
        /\ calls (st_trace s') = [[VRef 1]]
        /\ (exists o, st_heap s' !! 1 = Some o /\ props o !! "message" = None)
        /\ is_descriptor (st_heap s') (VRef 1) = false).
Proof.
  split; intros; eexists; (split; [vm_compute; reflexivity|]);
    (split; [reflexivity|]); (split; [|reflexivity]);
    eexists; (split; [reflexivity|]); reflexivity.
Qed.

(** ** What the operations never do

    Bounds on the requests and callback invocations of a computation,
    and the objects of the store it leaves alone, built up along the
    structure of the operations. *)

Lemma behaves_weaken e nr nc nr' nc' {A} (m : M A) :
  behaves e nr nc m -> nr <= nr' -> nc <= nc' -> behaves e nr' nc' m.
Proof.
  intros Hm Hr Hc s. destruct (Hm s) as [(extra & Ht & Hrq & Hcl) Hh].
  split; [|done]. exists extra. split; [done|split; lia].
Qed.

Lemma behaves_silent e {A} (m : M A) :
  (forall s, st_trace (snd (m s)) = st_trace s) ->
  (forall s l o, st_heap s !! l = Some o -> VRef l <> e ->
                 st_heap (snd (m s)) !! l = Some o) ->
  behaves e 0 0 m.
Proof.
  intros Ht Hh s. split; [|by apply Hh].
  exists []. rewrite app_nil_r. split; [by rewrite Ht|split; simpl; lia].
Qed.

Lemma behaves_ret e {A} (a : A) : behaves e 0 0 (ret a).
Proof. by apply behaves_silent. Qed.

Lemma behaves_throw e {A} (x : value) : behaves e 0 0 (@throw A x).
Proof. by apply behaves_silent. Qed.

Lemma behaves_read e {A} (f : heap -> A) : behaves e 0 0 (read f).
Proof. by apply behaves_silent. Qed.

Lemma behaves_alloc e o : behaves e 0 0 (alloc o).
Proof.
  apply behaves_silent; [done|]. intros s l o' Hl _. simpl.
  by apply lookup_app_l_Some.
Qed.

Lemma behaves_bind e nr nc nr' nc' {A B} (m : M A) (k : A -> M B) :
  behaves e nr nc m -> (forall a, behaves e nr' nc' (k a)) ->
  behaves e (nr + nr') (nc + nc') (bind m k).
Proof.
  intros Hm Hk s. destruct (Hm s) as [(e1 & Ht1 & Hr1 & Hc1) Hh1].
  unfold bind. destruct (m s) as [[a|x] s1]; simpl in *.
  - destruct (Hk a s1) as [(e2 & Ht2 & Hr2 & Hc2) Hh2]. split.
    + exists (e1 ++ e2). rewrite Ht2, Ht1, app_assoc.
      unfold requests, calls in *. rewrite !omap_app, !length_app.
      split; [done|split; lia].
    + intros l o Hl Hne. apply Hh2; [|done]. by apply Hh1.
  - split; [|done]. exists e1. split; [done|split; lia].
Qed.

(** Sequencing after a computation that touches neither trace nor
    foreign objects keeps the bound of what follows. *)
Lemma behaves_after e nr nc {A B} (m : M A) (k : A -> M B) :
  behaves e 0 0 m -> (forall a, behaves e nr nc (k a)) ->
  behaves e nr nc (bind m k).
Proof. intros Hm Hk. by apply (behaves_bind e 0 0 nr nc). Qed.

Lemma behaves_type_error e {A} : behaves e 0 0 (@type_error A).
Proof.
  unfold type_error. apply behaves_after; [apply behaves_alloc|].
  intros a. apply behaves_throw.
Qed.

Lemma behaves_get e v k : behaves e 0 0 (get v k).
Proof.
  unfold get. destruct (nullish v); [apply behaves_type_error|apply behaves_read].
Qed.

(** A write goes to the object written to and to no other. *)
Lemma behaves_set e k x : behaves e 0 0 (set e k x).
Proof.
  destruct e as [| | | | |le]; try apply behaves_type_error.
  apply behaves_silent; [done|]. intros s l o Hl Hne. simpl.
  rewrite list_lookup_alter_ne; [done|]. intros ->. by apply Hne.
Qed.

Lemma behaves_path e v ks : behaves e 0 0 (path v ks).
Proof.
  revert v. induction ks as [|k ks IH]; intros v; simpl.
  - apply behaves_ret.
  - apply behaves_after; [apply behaves_get|]. intros x. apply IH.
Qed.

Lemma behaves_js_and e a b :
  behaves e 0 0 a -> behaves e 0 0 b -> behaves e 0 0 (js_and a b).
Proof.
  intros Ha Hb. unfold js_and. apply behaves_after; [done|].
  intros x. destruct (truthy x); [done|apply behaves_ret].
Qed.

Lemma behaves_js_or e a b :
  behaves e 0 0 a -> behaves e 0 0 b -> behaves e 0 0 (js_or a b).
Proof.
  intros Ha Hb. unfold js_or. apply behaves_after; [done|].
  intros x. destruct (truthy x); [apply behaves_ret|done].
Qed.

Lemma behaves_orb_lazy e a b :
  behaves e 0 0 a -> behaves e 0 0 b -> behaves e 0 0 (orb_lazy a b).
Proof.
  intros Ha Hb. unfold orb_lazy. apply behaves_after; [done|].
  intros x. destruct x; [apply behaves_ret|done].
Qed.

Lemma behaves_cb e args : behaves e 0 1 (cb args).
Proof.
  intros s. split; [|done]. exists [Called args]. split; [done|split; simpl; lia].
Qed.

Lemma behaves_assertArgumentsSize e argc n : behaves e 0 0 (assertArgumentsSize argc n).
Proof.
  unfold assertArgumentsSize. destruct (Nat.eqb argc n); [apply behaves_ret|].
  apply behaves_after; [apply behaves_alloc|]. intros a. apply behaves_throw.
Qed.

(** A request through superagent: one request, then whatever the
    callback given to [end] does with the transport's answer. *)
Lemma behaves_superagent_end deps rq nc k :
  (forall err res, behaves err 0 nc (k err res)) ->
  behaves (fst (superagent deps rq)) 1 nc (superagent_end deps rq k).
Proof.
  intros Hk. unfold superagent_end.
  apply (behaves_bind _ 1 0 0 nc).
  - intros s. split; [|done]. exists [Sent rq]. split; [done|split; simpl; lia].
  - intros _. destruct (superagent deps rq) as [err res]. apply Hk.
Qed.

(** The chains of guarded reads of the [end] callbacks. *)
Lemma behaves_body_chain e err k :
  behaves e 0 0
    (js_or (js_and (js_and (get err "response") (path err ["response"; "body"]))
                   (path err ["response"; "body"; k]))
           (ret (VStr ""))).
Proof.
  apply behaves_js_or; [|apply behaves_ret].
  apply behaves_js_and; [|apply behaves_path].
  apply behaves_js_and; [apply behaves_get|apply behaves_path].
Qed.

Lemma behaves_signupConfirm_end err res : behaves err 0 1 (signupConfirm_end err res).
Proof.
  unfold signupConfirm_end. destruct (negb (nullish err)).
  - apply behaves_after; [apply behaves_body_chain|]. intros m.
    apply behaves_after; [apply behaves_set|]. intros _. apply behaves_cb.
  - apply behaves_after; [apply behaves_get|]. intros st.
    destruct (negb (strict_eq st (VNum 200))); [|apply behaves_cb].
    apply behaves_after; [apply behaves_get|]. intros st'.
    apply behaves_after; [apply behaves_path|]. intros reason.
    apply behaves_after; [apply behaves_alloc|]. intros d. apply behaves_cb.
Qed.

Lemma behaves_custodialSignupConfirm_end err res :
  behaves err 0 1 (custodialSignupConfirm_end err res).
Proof.
  unfold custodialSignupConfirm_end. destruct (negb (nullish err)).
  - apply behaves_after; [apply behaves_body_chain|]. intros e.
    apply behaves_after; [apply behaves_set|]. intros _.
    apply behaves_after; [apply behaves_body_chain|]. intros m.
    apply behaves_after; [apply behaves_set|]. intros _. apply behaves_cb.
  - apply behaves_after; [apply behaves_get|]. intros st.
    destruct (negb (strict_eq st (VNum 200))); [|apply behaves_cb].
    apply behaves_after; [apply behaves_get|]. intros st'.
    apply behaves_after; [apply behaves_path|]. intros error.
    apply behaves_after; [apply behaves_path|]. intros reason.
    apply behaves_after; [apply behaves_alloc|]. intros d. apply behaves_cb.
Qed.

Lemma behaves_confirmPasswordReset_end err res :
  behaves err 0 1 (confirmPasswordReset_end err res).
Proof.
  unfold confirmPasswordReset_end. destruct (negb (nullish err)).
  - apply behaves_after.
    { apply behaves_js_or; [|apply behaves_ret].
      apply behaves_js_and; [apply behaves_get|apply behaves_path]. }
    intros m. apply behaves_after; [apply behaves_set|]. intros _. apply behaves_cb.
  - apply behaves_after; [apply behaves_get|]. intros st.
    destruct (negb (strict_eq st (VNum 200))); [|apply behaves_cb].
    apply behaves_after; [apply behaves_get|]. intros st'.
    apply behaves_after; [apply behaves_get|]. intros e.
    apply behaves_after; [apply behaves_alloc|]. intros d. apply behaves_cb.
Qed.

Lemma behaves_invitesReceived_end err res :
  behaves err 0 1 (invitesReceived_end err res).
Proof.
  unfold invitesReceived_end. destruct (negb (nullish err)).
  - apply behaves_after; [apply behaves_get|]. intros st.
    destruct (strict_eq st (VNum 404)).
    + apply behaves_after; [apply behaves_alloc|]. intros a. apply behaves_cb.
    + apply behaves_after.
      { apply behaves_js_or; [|apply behaves_alloc].
        apply behaves_js_and; [apply behaves_get|apply behaves_path]. }
      intros b. apply behaves_cb.
  - apply behaves_after; [apply behaves_get|]. intros st.
    destruct (strict_eq st (VNum 200)).
    + apply behaves_after; [apply behaves_get|]. intros b. apply behaves_cb.
    + apply behaves_after; [apply behaves_get|]. intros st'.
      destruct (strict_eq st' (VNum 404)).
      * apply behaves_after; [apply behaves_alloc|]. intros a. apply behaves_cb.
      * apply behaves_after; [apply behaves_get|]. intros b.
        apply behaves_after; [apply behaves_alloc|]. intros a. apply behaves_cb.
Qed.

Lemma behaves_run e nr nc {A} (m : M A) h :
  behaves e nr nc m ->
  length (requests (st_trace (snd (run m h)))) <= nr
  /\ length (calls (st_trace (snd (run m h)))) <= nc
  /\ keeps h (fun l => VRef l <> e) (run m h).
Proof.
  intros Hm. destruct (Hm (State h [])) as [(extra & Ht & Hr & Hc) Hh].
  unfold run. simpl in Ht. rewrite Ht. repeat split; [done|done|].
  intros l o Hl Hne. by apply Hh.
Qed.

Lemma behaves_signupConfirm common deps argc id :
  behaves (fst (superagent deps (signupConfirm_request common id))) 1 1
    (signupConfirm common deps argc id).
Proof.
  unfold signupConfirm.
  apply behaves_after; [apply behaves_assertArgumentsSize|]. intros _.
  apply behaves_superagent_end, behaves_signupConfirm_end.
Qed.

Lemma behaves_invitesReceived common deps argc id :
  behaves (fst (superagent deps (invitesReceived_request common id))) 1 1
    (invitesReceived common deps argc id).
Proof.
  unfold invitesReceived.
  apply behaves_after; [apply behaves_assertArgumentsSize|]. intros _.
  apply behaves_superagent_end, behaves_invitesReceived_end.
Qed.

(** The trace and the old objects after custodialSignupConfirm, whose
    request carries a body made just before. *)
Lemma custodialSignupConfirm_bounds common deps argc id birthday password h :
  let out := run (custodialSignupConfirm common deps argc id birthday password) h in
  at_most_once out
  /\ keeps h (fun l => VRef l
                       <> fst (superagent deps
                                 (custodialSignupConfirm_request common id (VRef (length h)))))
       out.
Proof.
  unfold custodialSignupConfirm, run. cbn zeta.
  set (e := fst (superagent deps (custodialSignupConfirm_request common id (VRef (length h))))).
  destruct (Nat.eqb argc 4) eqn:Hargc.
  - unfold assertArgumentsSize. rewrite Hargc.
    rewrite (bind_ok _ _ _ _ _ (eq_refl : ret tt (State h []) = (Ok tt, State h []))).
    rewrite (bind_ok _ _ _ _ _ (alloc_run _ _ _)).
    destruct (behaves_superagent_end deps
                (custodialSignupConfirm_request common id (VRef (length h))) 1
                custodialSignupConfirm_end behaves_custodialSignupConfirm_end
                (State (h ++ [literal [("birthday", birthday); ("password", password)]]) []))
      as [(extra & Ht & Hr & Hc) Hh].
    unfold custodialSignupConfirm_request in *. simpl in Ht.
    split; [unfold at_most_once; by rewrite Ht|].
    intros l o Hl Hne. apply Hh; [|done]. simpl. by apply lookup_app_l_Some.
  - unfold assertArgumentsSize. rewrite Hargc. split.
    + unfold at_most_once. simpl. lia.
    + intros l o Hl _. simpl. by apply lookup_app_l_Some.
Qed.

Lemma behaves_confirmPasswordReset common deps argc payload :
  behaves (fst (superagent deps (confirmPasswordReset_request common payload))) 1 1
    (confirmPasswordReset common deps argc payload).
Proof.
  unfold confirmPasswordReset.
  apply behaves_after; [apply behaves_assertArgumentsSize|]. intros _.
  apply (behaves_bind _ 0 0 1 1).
  - apply behaves_orb_lazy; [apply behaves_orb_lazy|];
      (apply behaves_after; [apply behaves_get|]; intros x; apply behaves_read).
  - intros incomplete. destruct incomplete.
    + apply (behaves_weaken _ 0 1); [|lia|lia].
      apply behaves_after; [apply behaves_alloc|]. intros d. apply behaves_cb.
    + apply behaves_superagent_end, behaves_confirmPasswordReset_end.
Qed.

(** The identifier guard decides every value one way or the other. *)
Lemma identifier_cases v :
  (exists s, v = VStr s /\ s <> "") \/ (v = VStr "" \/ isString v = false).
Proof.
  destruct v as [| | | |s|]; try (right; right; reflexivity).
  destruct s as [|c s]; [right; by left|]. left. by eexists.
Qed.

Lemma signupStart_outcome_bounds h rq a :
  fst (signupStart_outcome h rq a) = Ok tt
  /\ requests (st_trace (snd (signupStart_outcome h rq a))) = [rq]
  /\ length (calls (st_trace (snd (signupStart_outcome h rq a)))) = 1
  /\ keeps h (fun _ => True) (signupStart_outcome h rq a).
Proof.
  unfold keeps. destruct a as [r|reason]; simpl; [|done].
  destruct (ok r); simpl; [done|]. repeat split.
  intros l o Hl _. by apply lookup_app_l_Some.
Qed.

Lemma resend_outcome_bounds h rq a :
  fst (resend_outcome h rq a) = Ok tt
  /\ requests (st_trace (snd (resend_outcome h rq a))) = [rq]
  /\ length (calls (st_trace (snd (resend_outcome h rq a)))) = 1
  /\ keeps h (fun _ => True) (resend_outcome h rq a).
Proof.
  unfold keeps. destruct a as [r|reason]; simpl; [|done].
  destruct (ok r); simpl; [done|]. destruct (text r); simpl; [|done].
  repeat split. intros l o Hl _. by apply lookup_app_l_Some.
Qed.

(** A call refused by the identifier guard: an exception, an empty
    trace, and the new [Error] as the only change of the store. *)
Lemma refused_bounds {A} (h : heap) (e : value) (o : object) :
  at_most_once (@Throw A e, State (h ++ [o]) [])
  /\ keeps h (fun _ => True) (@Throw A e, State (h ++ [o]) []).
Proof.
  split; [unfold at_most_once; simpl; lia|].
  intros l o' Hl _. by apply lookup_app_l_Some.
Qed.

Lemma signupStart_refused common deps h v lang :
  v = VStr "" \/ isString v = false ->
  run (signupStart common deps v lang) h
  = (Throw (VRef (length h)),
     State (h ++ [error_object "Error" "Invalid parameter invitedId"]) []).
Proof.
  intros Hv. unfold signupStart, run.
  by rewrite (bind_ok _ _ _ _ _ (guard_bad h v Hv)).
Qed.

Lemma signupResend_refused common deps h v lang :
  v = VStr "" \/ isString v = false ->
  run (signupResend common deps v lang) h
  = (Throw (VRef (length h)),
     State (h ++ [error_object "Error" "Invalid parameter email"]) []).
Proof.
  intros Hv. unfold signupResend, run.
  by rewrite (bind_ok _ _ _ _ _ (guard_bad h v Hv)).
Qed.

Lemma requestPasswordReset_refused common deps h v info lang :
  v = VStr "" \/ isString v = false ->
  run (requestPasswordReset common deps v info lang) h
  = (Throw (VRef (length h)),
     State (h ++ [error_object "Error" "Invalid parameter email"]) []).
Proof.
  intros Hv. unfold requestPasswordReset, run.
  by rewrite (bind_ok _ _ _ _ _ (guard_bad h v Hv)).
Qed.

Lemma at_most_once_of_exact {A} (out : result A * state) rq :
  requests (st_trace (snd out)) = [rq] ->
  length (calls (st_trace (snd out))) = 1 ->
  at_most_once out.
Proof. intros Hr Hc. unfold at_most_once. rewrite Hr, Hc. simpl. lia. Qed.

(** X1: whatever the arguments, the store and the answer of the
    transport, no operation issues more than one request and none
    invokes the callback more than once.  (The callback is one that
    returns normally, as everywhere in this model; one that throws
    inside a [then] handler would be invoked again by [catch].) *)
Theorem never_twice common deps h argc id birthday password payload v info lang :
  at_most_once (run (signupStart common deps v lang) h)
  /\ at_most_once (run (signupResend common deps v lang) h)
  /\ at_most_once (run (requestPasswordReset common deps v info lang) h)
  /\ at_most_once (run (signupConfirm common deps argc id) h)
  /\ at_most_once (run (custodialSignupConfirm common deps argc id birthday password) h)
  /\ at_most_once (run (invitesReceived common deps argc id) h)
  /\ at_most_once (run (confirmPasswordReset common deps argc payload) h).
Proof.
  split; [|split; [|split; [|split; [|split; [|split]]]]].
  - destruct (identifier_cases v) as [(s & -> & Hs)|Hv].
    + rewrite (signupStart_run _ _ _ _ _ Hs). cbn zeta.
      destruct (signupStart_outcome_bounds h
                  (signupStart_request common s lang)
                  (fetch deps (signupStart_request common s lang))) as (_ & Hr & Hc & _).
      by eapply at_most_once_of_exact.
    + rewrite (signupStart_refused _ _ _ _ _ Hv). apply refused_bounds.
  - destruct (identifier_cases v) as [(s & -> & Hs)|Hv].
    + rewrite (signupResend_run _ _ _ _ _ Hs). cbn zeta.
      destruct (resend_outcome_bounds h
                  (signupResend_request common s lang)
                  (fetch deps (signupResend_request common s lang))) as (_ & Hr & Hc & _).
      by eapply at_most_once_of_exact.
    + rewrite (signupResend_refused _ _ _ _ _ Hv). apply refused_bounds.
  - destruct (identifier_cases v) as [(s & -> & Hs)|Hv].
    + rewrite (requestPasswordReset_run _ _ _ _ _ _ Hs). cbn zeta.
      destruct (resend_outcome_bounds h
                  (requestPasswordReset_request common s info lang)
                  (fetch deps (requestPasswordReset_request common s info lang)))
        as (_ & Hr & Hc & _).
      by eapply at_most_once_of_exact.
    + rewrite (requestPasswordReset_refused _ _ _ _ _ _ Hv). apply refused_bounds.
  - destruct (behaves_run _ _ _ _ h (behaves_signupConfirm common deps argc id))
      as (Hr & Hc & _). by split.
  - apply custodialSignupConfirm_bounds.
  - destruct (behaves_run _ _ _ _ h (behaves_invitesReceived common deps argc id))
      as (Hr & Hc & _). by split.
  - destruct (behaves_run _ _ _ _ h (behaves_confirmPasswordReset common deps argc payload))
      as (Hr & Hc & _). by split.
Qed.

Lemma behaves_invitesReceived_end_any e err res :
  behaves e 0 1 (invitesReceived_end err res).
Proof.
  unfold invitesReceived_end. destruct (negb (nullish err)).
  - apply behaves_after; [apply behaves_get|]. intros st.
    destruct (strict_eq st (VNum 404)).
    + apply behaves_after; [apply behaves_alloc|]. intros a. apply behaves_cb.
    + apply behaves_after.
      { apply behaves_js_or; [|apply behaves_alloc].
        apply behaves_js_and; [apply behaves_get|apply behaves_path]. }
      intros b. apply behaves_cb.
  - apply behaves_after; [apply behaves_get|]. intros st.
    destruct (strict_eq st (VNum 200)).
    + apply behaves_after; [apply behaves_get|]. intros b. apply behaves_cb.
    + apply behaves_after; [apply behaves_get|]. intros st'.
      destruct (strict_eq st' (VNum 404)).
      * apply behaves_after; [apply behaves_alloc|]. intros a. apply behaves_cb.
      * apply behaves_after; [apply behaves_get|]. intros b.
        apply behaves_after; [apply behaves_alloc|]. intros a. apply behaves_cb.
Qed.

Lemma behaves_invitesReceived_any e common deps argc id :
  behaves e 1 1 (invitesReceived common deps argc id).
Proof.
  unfold invitesReceived.
  apply behaves_after; [apply behaves_assertArgumentsSize|]. intros _.
  unfold superagent_end. apply (behaves_bind _ 1 0 0 1).
  - intros s. split; [|done]. exists [Sent (Request GET
        (makeAPIUrl common ("/confirm/invitations/" +:+ id))
        [(SESSION_TOKEN_HEADER common, getToken common)] None None)].
    split; [done|split; simpl; lia].
  - intros _. destruct (superagent deps _) as [err res].
    apply behaves_invitesReceived_end_any.
Qed.

(** X2: no operation changes an object that is already in the store,
    with one exception: signupConfirm, custodialSignupConfirm and
    confirmPasswordReset may write to the error object the transport
    reports.  The payload, the response and its body are never written
    to, and the fetch-style operations and invitesReceived write to
    nothing at all. *)
Theorem store_left_alone common deps h argc id birthday password payload v info lang :
  keeps h (fun _ => True) (run (signupStart common deps v lang) h)
  /\ keeps h (fun _ => True) (run (signupResend common deps v lang) h)
  /\ keeps h (fun _ => True) (run (requestPasswordReset common deps v info lang) h)
  /\ keeps h (fun _ => True) (run (invitesReceived common deps argc id) h)
  /\ keeps h (fun l => VRef l <> fst (superagent deps (signupConfirm_request common id)))
       (run (signupConfirm common deps argc id) h)
  /\ keeps h (fun l => VRef l
                       <> fst (superagent deps
                                 (custodialSignupConfirm_request common id (VRef (length h)))))
       (run (custodialSignupConfirm common deps argc id birthday password) h)
  /\ keeps h (fun l => VRef l
                       <> fst (superagent deps (confirmPasswordReset_request common payload)))
       (run (confirmPasswordReset common deps argc payload) h).
Proof.
  split; [|split; [|split; [|split; [|split; [|split]]]]].
  - destruct (identifier_cases v) as [(s & -> & Hs)|Hv].
    + rewrite (signupStart_run _ _ _ _ _ Hs). cbn zeta.
      apply signupStart_outcome_bounds.
    + rewrite (signupStart_refused _ _ _ _ _ Hv). apply refused_bounds.
  - destruct (identifier_cases v) as [(s & -> & Hs)|Hv].
    + rewrite (signupResend_run _ _ _ _ _ Hs). cbn zeta.
      apply resend_outcome_bounds.
    + rewrite (signupResend_refused _ _ _ _ _ Hv). apply refused_bounds.
  - destruct (identifier_cases v) as [(s & -> & Hs)|Hv].
    + rewrite (requestPasswordReset_run _ _ _ _ _ _ Hs). cbn zeta.
      apply resend_outcome_bounds.
    + rewrite (requestPasswordReset_refused _ _ _ _ _ _ Hv). apply refused_bounds.
  - destruct (behaves_run VUndef _ _ _ h (behaves_invitesReceived_any VUndef common deps argc id))
      as (_ & _ & Hk).
    intros l o Hl _. by apply Hk.
  - by destruct (behaves_run _ _ _ _ h (behaves_signupConfirm common deps argc id))
      as (_ & _ & Hk).
  - apply custodialSignupConfirm_bounds.
  - by destruct (behaves_run _ _ _ _ h (behaves_confirmPasswordReset common deps argc payload))
      as (_ & _ & Hk).
Qed.

(** X3: called with a non-empty string, each of signupStart,
    signupResend and requestPasswordReset returns normally, issues
    exactly one request and invokes the callback exactly once, whatever
    the transport does: a response that is ok or not, a body text that
    cannot be read, or a rejected fetch.  (The callback is one that
    returns normally.) *)
Theorem fetch_operations_exactly_once common deps h s info lang :
  s <> "" ->
  (let out := run (signupStart common deps (VStr s) lang) h in
   fst out = Ok tt
   /\ requests (st_trace (snd out)) = [signupStart_request common s lang]
   /\ length (calls (st_trace (snd out))) = 1)
  /\ (let out := run (signupResend common deps (VStr s) lang) h in
      fst out = Ok tt
      /\ requests (st_trace (snd out)) = [signupResend_request common s lang]
      /\ length (calls (st_trace (snd out))) = 1)
  /\ (let out := run (requestPasswordReset common deps (VStr s) info lang) h in
      fst out = Ok tt
      /\ requests (st_trace (snd out)) = [requestPasswordReset_request common s info lang]
      /\ length (calls (st_trace (snd out))) = 1).
Proof.
  intros Hs. split; [|split]; cbn zeta.
  - rewrite (signupStart_run _ _ _ _ _ Hs). cbn zeta.
    destruct (signupStart_outcome_bounds h (signupStart_request common s lang)
                (fetch deps (signupStart_request common s lang))) as (H1 & H2 & H3 & _).
    done.
  - rewrite (signupResend_run _ _ _ _ _ Hs). cbn zeta.
    destruct (resend_outcome_bounds h (signupResend_request common s lang)
                (fetch deps (signupResend_request common s lang))) as (H1 & H2 & H3 & _).
    done.
  - rewrite (requestPasswordReset_run _ _ _ _ _ _ Hs). cbn zeta.
    destruct (resend_outcome_bounds h (requestPasswordReset_request common s info lang)
                (fetch deps (requestPasswordReset_request common s info lang)))
      as (H1 & H2 & H3 & _).
    done.
Qed.

Lemma fetch_operations_exactly_once_witness :
  let deps := demo_deps VNull VNull (Resolved (Response false 503 (inr (VStr "stream lost")))) in
  (let out := run (signupStart demo_common deps (VStr "u1") VUndef) [] in
   fst out = Ok tt
   /\ requests (st_trace (snd out)) = [signupStart_request demo_common "u1" VUndef]
   /\ length (calls (st_trace (snd out))) = 1)
  /\ (let out := run (signupResend demo_common deps (VStr "u1") VUndef) [] in
      fst out = Ok tt
      /\ requests (st_trace (snd out)) = [signupResend_request demo_common "u1" VUndef]
      /\ length (calls (st_trace (snd out))) = 1)
  /\ (let out := run (requestPasswordReset demo_common deps (VStr "u1") VUndef VUndef) [] in
      fst out = Ok tt
      /\ requests (st_trace (snd out))
         = [requestPasswordReset_request demo_common "u1" VUndef VUndef]
      /\ length (calls (st_trace (snd out))) = 1).
Proof.
  intros deps.
  apply (fetch_operations_exactly_once demo_common deps [] "u1" VUndef VUndef).
  discriminate.
Defined.

(** X4: when the transport fails without a response (the promise of
    fetch rejects), the callback receives the rejection itself, as its
    only argument, and nothing is added to the store.  The same holds
    for signupResend and requestPasswordReset when the response is not
    ok and its body text cannot be read: the callback receives the
    rejection of [text()], and no descriptor is built. *)
Theorem fetch_failures_passed_on common deps h s info lang reason :
  s <> "" ->
  (fetch deps (signupStart_request common s lang) = Rejected reason ->
   run (signupStart common deps (VStr s) lang) h
   = (Ok tt, State h [Sent (signupStart_request common s lang); Called [reason]]))
  /\ (fetch deps (signupResend_request common s lang) = Rejected reason ->
      run (signupResend common deps (VStr s) lang) h
      = (Ok tt, State h [Sent (signupResend_request common s lang); Called [reason]]))
  /\ (fetch deps (requestPasswordReset_request common s info lang) = Rejected reason ->
      run (requestPasswordReset common deps (VStr s) info lang) h
      = (Ok tt,
         State h [Sent (requestPasswordReset_request common s info lang); Called [reason]]))
  /\ (forall r,
        ok r = false -> text r = inr reason ->
        (fetch deps (signupResend_request common s lang) = Resolved r ->
         run (signupResend common deps (VStr s) lang) h
         = (Ok tt, State h [Sent (signupResend_request common s lang); Called [reason]]))
        /\ (fetch deps (requestPasswordReset_request common s info lang) = Resolved r ->
            run (requestPasswordReset common deps (VStr s) info lang) h
            = (Ok tt,
               State h [Sent (requestPasswordReset_request common s info lang);
                        Called [reason]]))).
Proof.
  intros Hs. split; [|split; [|split]].
  - intros Hf. rewrite (signupStart_run _ _ _ _ _ Hs). cbn zeta.
    unfold signupStart_request in Hf. by rewrite Hf.
  - intros Hf. rewrite (signupResend_run _ _ _ _ _ Hs). cbn zeta.
    unfold signupResend_request in Hf. by rewrite Hf.
  - intros Hf. rewrite (requestPasswordReset_run _ _ _ _ _ _ Hs). cbn zeta.
    unfold requestPasswordReset_request in Hf. by rewrite Hf.
  - intros r Hok Ht. split; intros Hf.
    + rewrite (signupResend_run _ _ _ _ _ Hs). cbn zeta.
      unfold signupResend_request in Hf. rewrite Hf. simpl. by rewrite Hok, Ht.
    + rewrite (requestPasswordReset_run _ _ _ _ _ _ Hs). cbn zeta.
      unfold requestPasswordReset_request in Hf. rewrite Hf. simpl. by rewrite Hok, Ht.
Qed.

Lemma fetch_failures_passed_on_witness :
  (let deps := demo_deps VNull VNull (Rejected (VStr "offline")) in
   run (signupStart demo_common deps (VStr "u1") VUndef) []
   = (Ok tt, State [] [Sent (signupStart_request demo_common "u1" VUndef);
                       Called [VStr "offline"]]))
  /\ (let deps := demo_deps VNull VNull
                    (Resolved (Response false 503 (inr (VStr "stream lost")))) in
      run (signupResend demo_common deps (VStr "u1") VUndef) []
      = (Ok tt, State [] [Sent (signupResend_request demo_common "u1" VUndef);
                          Called [VStr "stream lost"]])).
Proof.
  split; intros deps.
  - apply (fetch_failures_passed_on demo_common deps [] "u1" VUndef VUndef (VStr "offline"));
      [discriminate|reflexivity].
  - destruct (fetch_failures_passed_on demo_common deps [] "u1" VUndef VUndef
                (VStr "stream lost") ltac:(discriminate)) as (_ & _ & _ & H).
    apply (H (Response false 503 (inr (VStr "stream lost")))); reflexivity.
Defined.

(** X5: the defaults of requestPasswordReset apply to [undefined]
    only.  The query [?info=ok] is sent when [info] is left out or is
    truthy, and not for any other value, [null] included; the language
    header is ["en"] when [lang] is left out, and any other value,
    [null] included, is sent as it is. *)
Theorem requestPasswordReset_defaults common deps h s info lang :
  s <> "" ->
  let sent := requests (st_trace (snd (run (requestPasswordReset common deps (VStr s) info lang) h))) in
  (info = VUndef \/ truthy info = true ->
   map rurl sent = [makeAPIUrl common ("/confirm/send/forgot/" +:+ s +:+ "?info=ok")])
  /\ (info <> VUndef -> truthy info = false ->
      map rurl sent = [makeAPIUrl common ("/confirm/send/forgot/" +:+ s)])
  /\ (lang = VUndef ->
      map rheaders sent = [[("x-tidepool-trace-session", getSessionTrace common);
                            ("x-tidepool-language", VStr "en")]])
  /\ (lang <> VUndef ->
      map rheaders sent = [[("x-tidepool-trace-session", getSessionTrace common);
                            ("x-tidepool-language", lang)]]).
Proof.
  intros Hs sent. unfold sent.
  rewrite (requestPasswordReset_run _ _ _ _ _ _ Hs). cbn zeta.
  rewrite resend_outcome_requests. cbn [map rurl rheaders].
  split; [|split; [|split]].
  - intros [-> | Ht]; [done|]. destruct info; try done; cbn [default_param]; by rewrite Ht.
  - intros Hu Ht. destruct info; try done; cbn [default_param]; rewrite ?Ht;
      by rewrite append_empty_r.
  - by intros ->.
  - intros Hl. by destruct lang.
Qed.

Lemma requestPasswordReset_defaults_witness :
  let deps := demo_deps VNull VNull (Resolved (standard_response 200 "")) in
  map rurl (requests (st_trace (snd (run (requestPasswordReset demo_common deps (VStr "a@b.c")
                                            VNull VNull) []))))
  = ["https://api.example.org/confirm/send/forgot/a@b.c"]
  /\ map rheaders (requests (st_trace (snd (run (requestPasswordReset demo_common deps
                                                   (VStr "a@b.c") VNull VNull) []))))
  = [[("x-tidepool-trace-session", VStr "trace-1"); ("x-tidepool-language", VNull)]].
Proof.
  intros deps.
  destruct (requestPasswordReset_defaults demo_common deps [] "a@b.c" VNull VNull
              ltac:(discriminate)) as (_ & H2 & _ & H4).
  split.
  - apply H2; [discriminate|reflexivity].
  - apply H4. discriminate.
Defined.

(** ** Answers the [end] callbacks cannot handle *)

Lemma type_error_run {A} h tr :
  exists e h', @type_error A (State h tr) = (Throw e, State h' tr).
Proof. by eexists _, _. Qed.

Lemma get_nullish {A} v k h tr (f : value -> M A) :
  nullish v = true ->
  exists e h', bind (get v k) f (State h tr) = (Throw e, State h' tr).
Proof.
  intros Hv. unfold get. rewrite Hv.
  destruct (@type_error_run value h tr) as (e & h' & He).
  exists e, h'. by rewrite (bind_throw _ _ _ _ _ He).
Qed.

Lemma set_primitive {A} v k x h tr (f : unit -> M A) :
  (forall l, v <> VRef l) ->
  exists e h', bind (set v k x) f (State h tr) = (Throw e, State h' tr).
Proof.
  intros Hv. destruct (@type_error_run unit h tr) as (e & h' & He).
  exists e, h'. destruct v as [| | | | |l]; try by rewrite (bind_throw _ _ _ _ _ He).
  by destruct (Hv l).
Qed.

Lemma path2_no_step v k1 k2 h tr :
  nullish v = false -> nullish (field h v k1) = true ->
  exists e h', path v [k1; k2] (State h tr) = (Throw e, State h' tr).
Proof.
  intros Hv Hk. cbn [path].
  rewrite (bind_ok _ _ _ _ _ (get_defined v k1 (State h tr) Hv)).
  by apply get_nullish.
Qed.

(** A response with a status other than 200 and without body: reading
    the reason throws. *)
Lemma signupConfirm_end_no_body h tr err res :
  nullish err = true -> nullish res = false ->
  field h res "status" <> VNum 200 ->
  nullish (field h res "body") = true ->
  exists e h', signupConfirm_end err res (State h tr) = (Throw e, State h' tr).
Proof.
  intros Herr Hres Hst Hb. unfold signupConfirm_end. rewrite Herr. cbn [negb].
  rewrite (bind_ok _ _ _ _ _ (get_defined _ _ _ Hres)).
  cbn [st_heap]. rewrite (strict_eq_false _ _ Hst). cbn [negb].
  rewrite (bind_ok _ _ _ _ _ (get_defined _ _ _ Hres)).
  destruct (path2_no_step res "body" "reason" h tr Hres Hb) as (e & h' & Hp).
  exists e, h'. by rewrite (bind_throw _ _ _ _ _ Hp).
Qed.

Lemma custodialSignupConfirm_end_no_body h tr err res :
  nullish err = true -> nullish res = false ->
  field h res "status" <> VNum 200 ->
  nullish (field h res "body") = true ->
  exists e h', custodialSignupConfirm_end err res (State h tr) = (Throw e, State h' tr).
Proof.
  intros Herr Hres Hst Hb. unfold custodialSignupConfirm_end. rewrite Herr. cbn [negb].
  rewrite (bind_ok _ _ _ _ _ (get_defined _ _ _ Hres)).
  cbn [st_heap]. rewrite (strict_eq_false _ _ Hst). cbn [negb].
  rewrite (bind_ok _ _ _ _ _ (get_defined _ _ _ Hres)).
  destruct (path2_no_step res "body" "error" h tr Hres Hb) as (e & h' & Hp).
  exists e, h'. by rewrite (bind_throw _ _ _ _ _ Hp).
Qed.

(** X6: a response with a status other than 200 and no body (the
    [body] property missing or [null]) makes signupConfirm and
    custodialSignupConfirm throw inside the [end] callback: the request
    has gone out and the caller's callback is never invoked.
    confirmPasswordReset does not read the body and still calls back
    with its descriptor. *)
Theorem non_200_without_body common deps h err lr ro st :
  nullish err = true ->
  h !! lr = Some ro ->
  field h (VRef lr) "status" = st -> st <> VNum 200 ->
  nullish (field h (VRef lr) "body") = true ->
  (forall id,
     superagent deps (signupConfirm_request common id) = (err, VRef lr) ->
     exists e h',
       run (signupConfirm common deps 2 id) h
       = (Throw e, State h' [Sent (signupConfirm_request common id)]))
  /\ (forall id birthday password,
     superagent deps (custodialSignupConfirm_request common id (VRef (length h)))
     = (err, VRef lr) ->
     exists e h',
       run (custodialSignupConfirm common deps 4 id birthday password) h
       = (Throw e,
          State h' [Sent (custodialSignupConfirm_request common id (VRef (length h)))]))
  /\ (forall payload,
     nullish payload = false ->
     isEmpty h (field h payload "key") = false ->
     isEmpty h (field h payload "email") = false ->
     isEmpty h (field h payload "password") = false ->
     superagent deps (confirmPasswordReset_request common payload) = (err, VRef lr) ->
     run (confirmPasswordReset common deps 2 payload) h
     = (Ok tt,
        State (h ++ [literal [("status", st); ("message", field h (VRef lr) "error")]])
              [Sent (confirmPasswordReset_request common payload);
               Called [VRef (length h)]])).
Proof.
  intros Herr Hlr Hst Hne Hb. split; [|split].
  - intros id Hrq. unfold signupConfirm, run.
    rewrite (bind_ok _ _ _ _ _ (assertArgumentsSize_exact 2 _)).
    unfold signupConfirm_request in Hrq.
    rewrite (superagent_end_run _ _ _ _ _ _ _ Hrq).
    apply signupConfirm_end_no_body; try done. by rewrite Hst.
  - intros id birthday password Hrq. unfold custodialSignupConfirm, run.
    rewrite (bind_ok _ _ _ _ _ (assertArgumentsSize_exact 4 _)).
    rewrite (bind_ok _ _ _ _ _ (alloc_run _ _ _)).
    unfold custodialSignupConfirm_request in Hrq.
    rewrite (superagent_end_run _ _ _ _ _ _ _ Hrq).
    apply custodialSignupConfirm_end_no_body; try done.
    + by rewrite (field_alloc _ _ _ _ _ Hlr), Hst.
    + by rewrite (field_alloc _ _ _ _ _ Hlr).
  - intros payload Hp Hk He Hw Hrq.
    by apply (confirmPasswordReset_run_other common deps h err lr st Herr Hst
                payload Hp Hk He Hw Hrq Hne).
Qed.

(** A response with status 500 and no body, and a complete payload. *)
Lemma non_200_without_body_witness :
  let h := [ literal [("status", VNum 500)];
             literal [("key", VStr "k1"); ("email", VStr "a@b.c"); ("password", VStr "pw")] ] in
  let deps := demo_deps VNull (VRef 0) (Rejected VNull) in
  (exists e h',
      run (signupConfirm demo_common deps 2 "s1") h
      = (Throw e, State h' [Sent (signupConfirm_request demo_common "s1")]))
  /\ run (confirmPasswordReset demo_common deps 2 (VRef 1)) h
     = (Ok tt,
        State (h ++ [literal [("status", VNum 500); ("message", VUndef)]])
              [Sent (confirmPasswordReset_request demo_common (VRef 1)); Called [VRef 2]]).
Proof.
  intros h deps.
  destruct (non_200_without_body demo_common deps h VNull 0
              (literal [("status", VNum 500)]) (VNum 500)
              eq_refl eq_refl eq_refl ltac:(discriminate) eq_refl) as (H1 & _ & H3).
  split.
  - apply (H1 "s1"). reflexivity.
  - apply (H3 (VRef 1)); reflexivity.
Defined.

Lemma invitesReceived_end_primitive h tr err res :
  nullish err = false -> (forall l, err <> VRef l) ->
  invitesReceived_end err res (State h tr)
  = (Ok tt, State (h ++ [empty_array]) (tr ++ [Called [VRef (length h)]])).
Proof.
  intros Hn Hp.
  assert (forall k, field h err k = VUndef) as Hf
    by (intros k; destruct err; try done; by destruct (Hp l)).
  unfold invitesReceived_end. rewrite Hn. cbn [negb].
  rewrite (bind_ok _ _ _ _ _ (get_defined err _ _ Hn)).
  cbn [st_heap]. rewrite Hf, (strict_eq_false VUndef (VNum 404)) by done.
  pose proof (get_defined err "response" (State h tr) Hn) as Hget.
  cbn [st_heap] in Hget. rewrite Hf in Hget.
  assert (js_or (js_and (get err "response") (path err ["response"; "body"]))
                (alloc empty_array) (State h tr)
          = (Ok (VRef (length h)), State (h ++ [empty_array]) tr)) as Hor.
  { rewrite (js_or_ok _ _ (State h tr) VUndef (State h tr)); [done|].
    by rewrite (js_and_ok _ _ _ _ _ Hget). }
  by rewrite (bind_ok _ _ _ _ _ Hor), cb_run.
Qed.

(** X7: when the transport reports an error that is not an object (a
    string, a number, [true]), the assignment to [err.message] throws
    under ['use strict']: signupConfirm, custodialSignupConfirm and
    confirmPasswordReset end in an exception after the request and never
    invoke the callback.  invitesReceived assigns nothing: it calls
    back with a new empty array as its only argument. *)
Theorem primitive_transport_error common deps h err res :
  nullish err = false -> (forall l, err <> VRef l) ->
  (forall id,
     superagent deps (signupConfirm_request common id) = (err, res) ->
     exists e h',
       run (signupConfirm common deps 2 id) h
       = (Throw e, State h' [Sent (signupConfirm_request common id)]))
  /\ (forall id birthday password,
     superagent deps (custodialSignupConfirm_request common id (VRef (length h)))
     = (err, res) ->
     exists e h',
       run (custodialSignupConfirm common deps 4 id birthday password) h
       = (Throw e,
          State h' [Sent (custodialSignupConfirm_request common id (VRef (length h)))]))
  /\ (forall payload,
     nullish payload = false ->
     isEmpty h (field h payload "key") = false ->
     isEmpty h (field h payload "email") = false ->
     isEmpty h (field h payload "password") = false ->
     superagent deps (confirmPasswordReset_request common payload) = (err, res) ->
     exists e h',
       run (confirmPasswordReset common deps 2 payload) h
       = (Throw e, State h' [Sent (confirmPasswordReset_request common payload)]))
  /\ (forall id,
     superagent deps (invitesReceived_request common id) = (err, res) ->
     run (invitesReceived common deps 2 id) h
     = (Ok tt,
        State (h ++ [empty_array])
              [Sent (invitesReceived_request common id); Called [VRef (length h)]])).
Proof.
  intros Hn Hp. split; [|split; [|split]].
  - intros id Hrq. unfold signupConfirm, run.
    rewrite (bind_ok _ _ _ _ _ (assertArgumentsSize_exact 2 _)).
    unfold signupConfirm_request in Hrq.
    rewrite (superagent_end_run _ _ _ _ _ _ _ Hrq).
    unfold signupConfirm_end. rewrite Hn. cbn [negb].
    rewrite (bind_ok _ _ _ _ _ (body_chain err "reason" _ Hn)).
    by apply set_primitive.
  - intros id birthday password Hrq. unfold custodialSignupConfirm, run.
    rewrite (bind_ok _ _ _ _ _ (assertArgumentsSize_exact 4 _)).
    rewrite (bind_ok _ _ _ _ _ (alloc_run _ _ _)).
    unfold custodialSignupConfirm_request in Hrq.
    rewrite (superagent_end_run _ _ _ _ _ _ _ Hrq).
    unfold custodialSignupConfirm_end. rewrite Hn. cbn [negb].
    rewrite (bind_ok _ _ _ _ _ (body_chain err "error" _ Hn)).
    by apply set_primitive.
  - intros payload Hpl Hk He Hw Hrq. unfold confirmPasswordReset, run.
    rewrite (bind_ok _ _ _ _ _ (assertArgumentsSize_exact 2 _)).
    rewrite (bind_ok _ _ _ _ _ (payload_complete _ _ _ Hpl Hk He Hw)).
    unfold confirmPasswordReset_request in Hrq.
    rewrite (superagent_end_run _ _ _ _ _ _ _ Hrq).
    unfold confirmPasswordReset_end. rewrite Hn. cbn [negb].
    rewrite (bind_ok _ _ _ _ _ (response_error_chain err _ Hn)).
    by apply set_primitive.
  - intros id Hrq. unfold invitesReceived, run.
    rewrite (bind_ok _ _ _ _ _ (assertArgumentsSize_exact 2 _)).
    unfold invitesReceived_request in Hrq.
    rewrite (superagent_end_run _ _ _ _ _ _ _ Hrq).
    by rewrite invitesReceived_end_primitive.
Qed.

Lemma primitive_transport_error_witness :
  let deps := demo_deps (VStr "timeout") VUndef (Rejected VNull) in
  (exists e h',
      run (signupConfirm demo_common deps 2 "s1") []
      = (Throw e, State h' [Sent (signupConfirm_request demo_common "s1")]))
  /\ run (invitesReceived demo_common deps 2 "u1") []
     = (Ok tt,
        State [empty_array]
              [Sent (invitesReceived_request demo_common "u1"); Called [VRef 0]]).
Proof.
  intros deps.
  destruct (primitive_transport_error demo_common deps [] (VStr "timeout") VUndef
              eq_refl ltac:(discriminate)) as (H1 & _ & _ & H4).
  split.
  - apply (H1 "s1"). reflexivity.
  - apply (H4 "u1"). reflexivity.
Defined.

(** X8: called without payload ([undefined] or [null]),
    confirmPasswordReset throws while it reads [payload.key]: no
    request is issued and the callback is not invoked. *)
Theorem confirmPasswordReset_without_payload common deps h payload :
  nullish payload = true ->
  exists e h', run (confirmPasswordReset common deps 2 payload) h = (Throw e, State h' []).
Proof.
  intros Hp. unfold confirmPasswordReset, run.
  rewrite (bind_ok _ _ _ _ _ (assertArgumentsSize_exact 2 _)).
  destruct (get_nullish payload "key" h [] (fun x => read (fun h => isEmpty h x)) Hp)
    as (e & h' & Hg).
  exists e, h'.
  rewrite (bind_throw _ _ _ e (State h' [])); [done|].
  unfold orb_lazy.
  rewrite (bind_throw _ _ _ e (State h' [])); [done|].
  by rewrite (bind_throw _ _ _ _ _ Hg).
Qed.

Lemma confirmPasswordReset_without_payload_witness :
  exists e h',
    run (confirmPasswordReset demo_common (demo_deps VNull VNull (Rejected VNull)) 2 VUndef) []
    = (Throw e, State h' []).
Proof.
  apply (confirmPasswordReset_without_payload demo_common
           (demo_deps VNull VNull (Rejected VNull)) [] VUndef).
  reflexivity.
Defined.

(** ** Requests that always go out *)

(** After the request nothing more is sent: the requests of a call
    through superagent are that one request. *)
Lemma superagent_end_requests deps rq nc k h :
  (forall err res, behaves err 0 nc (k err res)) ->
  requests (st_trace (snd (superagent_end deps rq k (State h [])))) = [rq].
Proof.
  intros Hk. unfold superagent_end, bind, emit. simpl.
  destruct (superagent deps rq) as [err res].
  destruct (Hk err res (State h [Sent rq])) as [(extra & Ht & Hr & _) _].
  rewrite Ht. unfold requests in *. cbn [st_trace]. rewrite omap_app.
  destruct (omap _ extra); [done|]. simpl in Hr. lia.
Qed.

(** X9: for a payload that is there, confirmPasswordReset issues its
    request exactly when [key], [email] and [password] are all
    non-empty; the request is a PUT to [/confirm/accept/forgot] whose
    body is the payload itself, whatever the transport answers. *)
Theorem confirmPasswordReset_requests common deps h payload :
  nullish payload = false ->
  requests (st_trace (snd (run (confirmPasswordReset common deps 2 payload) h)))
  = if isEmpty h (field h payload "key")
       || isEmpty h (field h payload "email")
       || isEmpty h (field h payload "password")
    then []
    else [Request PUT (makeAPIUrl common "/confirm/accept/forgot") [] (Some payload) None].
Proof.
  intros Hp.
  destruct (isEmpty h (field h payload "key")) eqn:Hk;
    [|destruct (isEmpty h (field h payload "email")) eqn:He;
      [|destruct (isEmpty h (field h payload "password")) eqn:Hw]]; cbn [orb].
  - rewrite (confirmPasswordReset_run_incomplete common deps h payload Hp); [done|].
    by left.
  - rewrite (confirmPasswordReset_run_incomplete common deps h payload Hp); [done|].
    right. by left.
  - rewrite (confirmPasswordReset_run_incomplete common deps h payload Hp); [done|].
    right. by right.
  - unfold confirmPasswordReset, run.
    rewrite (bind_ok _ _ _ _ _ (assertArgumentsSize_exact 2 _)).
    rewrite (bind_ok _ _ _ _ _ (payload_complete _ _ _ Hp Hk He Hw)).
    apply (superagent_end_requests deps _ 1), behaves_confirmPasswordReset_end.
Qed.

Lemma confirmPasswordReset_requests_witness :
  let h := [literal [("key", VStr "k1"); ("email", VStr "a@b.c"); ("password", VStr "pw")]] in
  requests (st_trace (snd (run (confirmPasswordReset demo_common
                                  (demo_deps VNull VNull (Rejected VNull)) 2 (VRef 0)) h)))
  = [Request PUT "https://api.example.org/confirm/accept/forgot" [] (Some (VRef 0)) None].
Proof.
  intros h.
  apply (confirmPasswordReset_requests demo_common
           (demo_deps VNull VNull (Rejected VNull)) h (VRef 0)).
  reflexivity.
Defined.

(** X10: custodialSignupConfirm checks nothing about [birthday] and
    [password]: whatever their values, missing ones included, it
    issues exactly one request, a PUT to the same URL as signupConfirm,
    whose body is a new object holding the two values; and unless the
    transport reports that very object as its error, the object still
    holds them when the operation is over. *)
Theorem custodialSignupConfirm_always_sends common deps h id birthday password :
  let out := run (custodialSignupConfirm common deps 4 id birthday password) h in
  let rq := custodialSignupConfirm_request common id (VRef (length h)) in
  requests (st_trace (snd out)) = [rq]
  /\ rmethod rq = rmethod (signupConfirm_request common id)
  /\ rurl rq = rurl (signupConfirm_request common id)
  /\ (fst (superagent deps rq) <> VRef (length h) ->
      st_heap (snd out) !! length h
      = Some (literal [("birthday", birthday); ("password", password)])).
Proof.
  cbn zeta. unfold custodialSignupConfirm, run.
  rewrite (bind_ok _ _ _ _ _ (assertArgumentsSize_exact 4 _)).
  rewrite (bind_ok _ _ _ _ _ (alloc_run _ _ _)).
  split; [|split; [done|split; [done|]]].
  - apply (superagent_end_requests deps _ 1), behaves_custodialSignupConfirm_end.
  - intros Hne.
    destruct (behaves_superagent_end deps
                (custodialSignupConfirm_request common id (VRef (length h))) 1
                custodialSignupConfirm_end behaves_custodialSignupConfirm_end
                (State (h ++ [literal [("birthday", birthday); ("password", password)]]) []))
      as [_ Hh].
    apply Hh; [|by intros Heq; apply Hne].
    simpl. by rewrite list_lookup_middle.
Qed.

Lemma custodialSignupConfirm_always_sends_witness :
  let deps := demo_deps VNull VNull (Rejected VNull) in
  let out := run (custodialSignupConfirm demo_common deps 4 "s1" VUndef (VStr "")) [] in
  requests (st_trace (snd out))
  = [Request PUT "https://api.example.org/confirm/accept/signup/s1" [] (Some (VRef 0)) None]
  /\ st_heap (snd out) !! 0
     = Some (literal [("birthday", VUndef); ("password", VStr "")]).
Proof.
  intros deps out.
  destruct (custodialSignupConfirm_always_sends demo_common deps [] "s1" VUndef (VStr ""))
    as (H1 & _ & _ & H4).
  split; [exact H1|]. apply H4. discriminate.
Defined.

(** ** What the callback is handed *)

(** X11: invitesReceived hands on what it is given.  On a response
    with status 200 the callback receives [null] and the response's
    [body] as it is, without a copy and without a check that it is an
    array.  When the transport reports an error object whose status is
    not 404, the callback receives one argument only: the body of the
    response attached to the error when that is truthy, else a new
    empty array. *)
Theorem invitesReceived_answers common deps h id :
  (forall err res,
     nullish err = true -> nullish res = false ->
     field h res "status" = VNum 200 ->
     superagent deps (invitesReceived_request common id) = (err, res) ->
     run (invitesReceived common deps 2 id) h
     = (Ok tt,
        State h [Sent (invitesReceived_request common id);
                 Called [VNull; field h res "body"]]))
  /\ (forall l o res,
     h !! l = Some o ->
     field h (VRef l) "status" <> VNum 404 ->
     superagent deps (invitesReceived_request common id) = (VRef l, res) ->
     run (invitesReceived common deps 2 id) h
     = if truthy (field h (field h (VRef l) "response") "body")
       then (Ok tt,
             State h [Sent (invitesReceived_request common id);
                      Called [field h (field h (VRef l) "response") "body"]])
       else (Ok tt,
             State (h ++ [empty_array])
                   [Sent (invitesReceived_request common id); Called [VRef (length h)]])).
Proof.
  split.
  - intros err res Herr Hres Hst Hrq. unfold invitesReceived, run.
    rewrite (bind_ok _ _ _ _ _ (assertArgumentsSize_exact 2 _)).
    unfold invitesReceived_request in Hrq.
    rewrite (superagent_end_run _ _ _ _ _ _ _ Hrq).
    by rewrite invitesReceived_end_200.
  - intros l o res Hl Hst Hrq. unfold invitesReceived, run.
    rewrite (bind_ok _ _ _ _ _ (assertArgumentsSize_exact 2 _)).
    unfold invitesReceived_request in Hrq.
    rewrite (superagent_end_run _ _ _ _ _ _ _ Hrq).
    by rewrite (invitesReceived_end_error_other _ _ _ _ _ Hl Hst).
Qed.

(** A list of invitations, and an error with status 500 whose response
    has a body. *)
Lemma invitesReceived_answers_witness :
  (let h := [literal [("status", VNum 200); ("body", VRef 1)]; Obj (KArray [VStr "i1"]) ∅] in
   run (invitesReceived demo_common (demo_deps VNull (VRef 0) (Rejected VNull)) 2 "u1") h
   = (Ok tt,
      State h [Sent (invitesReceived_request demo_common "u1"); Called [VNull; VRef 1]]))
  /\ (let h := [Obj (KError "Error") {[ "status" := VNum 500; "response" := VRef 1 ]};
                literal [("body", VRef 2)]; literal [("reason", VStr "boom")]] in
      run (invitesReceived demo_common (demo_deps (VRef 0) VUndef (Rejected VNull)) 2 "u1") h
      = (Ok tt,
         State h [Sent (invitesReceived_request demo_common "u1"); Called [VRef 2]])).
Proof.
  split; intros h.
  - destruct (invitesReceived_answers demo_common
                (demo_deps VNull (VRef 0) (Rejected VNull)) h "u1") as [H _].
    apply (H VNull (VRef 0)); reflexivity.
  - destruct (invitesReceived_answers demo_common
                (demo_deps (VRef 0) VUndef (Rejected VNull)) h "u1") as [_ H].
    apply (H 0 (Obj (KError "Error") {[ "status" := VNum 500; "response" := VRef 1 ]}) VUndef);
      [reflexivity|discriminate|reflexivity].
Defined.

Lemma field_insert_set_other (h : heap) l o k x k' :
  h !! l = Some o -> k <> k' ->
  field (<[l := set_field k x o]> h) (VRef l) k' = field h (VRef l) k'.
Proof.
  intros Hl Hk. unfold field.
  rewrite list_lookup_insert_eq by (by eapply lookup_lt_Some).
  rewrite Hl. unfold set_field; simpl. by rewrite lookup_insert_ne.
Qed.

(** X12: the error object of the transport reaches the callback with
    its other properties as they were: signupConfirm and
    confirmPasswordReset replace [message] and nothing else,
    custodialSignupConfirm replaces [message] and [error] and nothing
    else.  An earlier [message] is lost; [status] and [response] stay
    readable. *)
Theorem error_object_keeps_other_properties common deps h l o res k :
  h !! l = Some o ->
  k <> "message" ->
  (forall id,
     superagent deps (signupConfirm_request common id) = (VRef l, res) ->
     field (st_heap (snd (run (signupConfirm common deps 2 id) h))) (VRef l) k
     = field h (VRef l) k)
  /\ (forall id birthday password,
     k <> "error" ->
     superagent deps (custodialSignupConfirm_request common id (VRef (length h)))
     = (VRef l, res) ->
     field (st_heap (snd (run (custodialSignupConfirm common deps 4 id birthday password) h)))
       (VRef l) k
     = field h (VRef l) k)
  /\ (forall payload,
     nullish payload = false ->
     isEmpty h (field h payload "key") = false ->
     isEmpty h (field h payload "email") = false ->
     isEmpty h (field h payload "password") = false ->
     superagent deps (confirmPasswordReset_request common payload) = (VRef l, res) ->
     field (st_heap (snd (run (confirmPasswordReset common deps 2 payload) h))) (VRef l) k
     = field h (VRef l) k).
Proof.
  intros Hl Hk. split; [|split].
  - intros id Hrq. unfold signupConfirm, run.
    rewrite (bind_ok _ _ _ _ _ (assertArgumentsSize_exact 2 _)).
    unfold signupConfirm_request in Hrq.
    rewrite (superagent_end_run _ _ _ _ _ _ _ Hrq).
    rewrite (signupConfirm_end_error _ _ _ _ _ Hl). cbn [snd st_heap].
    by apply field_insert_set_other.
  - intros id birthday password Hk' Hrq. unfold custodialSignupConfirm, run.
    rewrite (bind_ok _ _ _ _ _ (assertArgumentsSize_exact 4 _)).
    rewrite (bind_ok _ _ _ _ _ (alloc_run _ _ _)).
    unfold custodialSignupConfirm_request in Hrq.
    rewrite (superagent_end_run _ _ _ _ _ _ _ Hrq).
    rewrite (custodialSignupConfirm_end_error _ _ l o res (lookup_app_l_Some _ _ _ _ Hl)).
    cbn [snd st_heap]. unfold field.
    rewrite list_lookup_insert_eq
      by (rewrite length_app; apply lookup_lt_Some in Hl; lia).
    rewrite Hl. unfold set_field; simpl.
    by rewrite !lookup_insert_ne.
  - intros payload Hp Hpk Hpe Hpw Hrq. unfold confirmPasswordReset, run.
    rewrite (bind_ok _ _ _ _ _ (assertArgumentsSize_exact 2 _)).
    rewrite (bind_ok _ _ _ _ _ (payload_complete _ _ _ Hp Hpk Hpe Hpw)).
    unfold confirmPasswordReset_request in Hrq.
    rewrite (superagent_end_run _ _ _ _ _ _ _ Hrq).
    rewrite (confirmPasswordReset_end_error _ _ _ _ _ Hl). cbn [snd st_heap].
    by apply field_insert_set_other.
Qed.

Lemma error_object_keeps_other_properties_witness :
  let deps := demo_deps (VRef 0) VUndef (Rejected VNull) in
  field (st_heap (snd (run (signupConfirm demo_common deps 2 "s1") failed_with_reason)))
    (VRef 0) "response"
  = VRef 1.
Proof.
  intros deps.
  destruct (error_object_keeps_other_properties demo_common deps failed_with_reason 0
              (Obj (KError "Error") {[ "message" := VStr "Not Found"; "response" := VRef 1 ]})
              VUndef "response" eq_refl ltac:(discriminate)) as [H _].
  apply (H "s1"). reflexivity.
Defined.

(** X13: on a response with status 200 and no transport error,
    signupConfirm, custodialSignupConfirm and confirmPasswordReset
    invoke the callback with no argument at all (not with [null], as
    the fetch-style operations do); the response body is not looked at
    and nothing is written to the store beyond the request body that
    custodialSignupConfirm makes. *)
Theorem success_calls_back_without_arguments common deps h err lr ro :
  nullish err = true ->
  h !! lr = Some ro ->
  field h (VRef lr) "status" = VNum 200 ->
  (forall id,
     superagent deps (signupConfirm_request common id) = (err, VRef lr) ->
     run (signupConfirm common deps 2 id) h
     = (Ok tt, State h [Sent (signupConfirm_request common id); Called []]))
  /\ (forall id birthday password,
     superagent deps (custodialSignupConfirm_request common id (VRef (length h)))
     = (err, VRef lr) ->
     run (custodialSignupConfirm common deps 4 id birthday password) h
     = (Ok tt,
        State (h ++ [literal [("birthday", birthday); ("password", password)]])
              [Sent (custodialSignupConfirm_request common id (VRef (length h)));
               Called []]))
  /\ (forall payload,
     nullish payload = false ->
     isEmpty h (field h payload "key") = false ->
     isEmpty h (field h payload "email") = false ->
     isEmpty h (field h payload "password") = false ->
     superagent deps (confirmPasswordReset_request common payload) = (err, VRef lr) ->
     run (confirmPasswordReset common deps 2 payload) h
     = (Ok tt, State h [Sent (confirmPasswordReset_request common payload); Called []])).
Proof.
  intros Herr Hlr Hst. split; [|split].
  - intros id Hrq.
    by apply (signupConfirm_run_200 common deps h err lr (VNum 200) Herr Hst id Hrq).
  - intros id birthday password Hrq.
    by apply (custodialSignupConfirm_run_200 common deps h err lr ro (VNum 200) Herr Hlr Hst
                id birthday password Hrq).
  - intros payload Hp Hk He Hw Hrq.
    by apply (confirmPasswordReset_run_200 common deps h err lr (VNum 200) Herr Hst
                payload Hp Hk He Hw Hrq).
Qed.

Lemma success_calls_back_without_arguments_witness :
  let h := [literal [("status", VNum 200); ("body", VRef 1)]; literal []] in
  let deps := demo_deps VNull (VRef 0) (Rejected VNull) in
  run (signupConfirm demo_common deps 2 "s1") h
  = (Ok tt, State h [Sent (signupConfirm_request demo_common "s1"); Called []]).
Proof.
  intros h deps.
  destruct (success_calls_back_without_arguments demo_common deps h VNull 0
              (literal [("status", VNum 200); ("body", VRef 1)]) eq_refl eq_refl eq_refl)
    as [H _].
  apply (H "s1"). reflexivity.
Defined.

(** X14: on a response that is ok, each fetch-style operation invokes
    the callback with the single argument [null] and leaves the store
    as it was; neither the status nor the body text of the response is
    looked at, so a body that cannot be read does no harm. *)
Theorem ok_response_calls_back_with_null common deps h s info lang r :
  s <> "" -> ok r = true ->
  (fetch deps (signupStart_request common s lang) = Resolved r ->
   run (signupStart common deps (VStr s) lang) h
   = (Ok tt, State h [Sent (signupStart_request common s lang); Called [VNull]]))
  /\ (fetch deps (signupResend_request common s lang) = Resolved r ->
      run (signupResend common deps (VStr s) lang) h
      = (Ok tt, State h [Sent (signupResend_request common s lang); Called [VNull]]))
  /\ (fetch deps (requestPasswordReset_request common s info lang) = Resolved r ->
      run (requestPasswordReset common deps (VStr s) info lang) h
      = (Ok tt,
         State h [Sent (requestPasswordReset_request common s info lang); Called [VNull]])).
Proof.
  intros Hs Hok. split; [|split]; intros Hf.
  - rewrite (signupStart_run _ _ _ _ _ Hs). cbn zeta.
    unfold signupStart_request in Hf. rewrite Hf. simpl. by rewrite Hok.
  - rewrite (signupResend_run _ _ _ _ _ Hs). cbn zeta.
    unfold signupResend_request in Hf. rewrite Hf. simpl. by rewrite Hok.
  - rewrite (requestPasswordReset_run _ _ _ _ _ _ Hs). cbn zeta.
    unfold requestPasswordReset_request in Hf. rewrite Hf. simpl. by rewrite Hok.
Qed.

Lemma ok_response_calls_back_with_null_witness :
  let deps := demo_deps VNull VNull
                (Resolved (Response true 201 (inr (VStr "stream lost")))) in
  run (signupResend demo_common deps (VStr "a@b.c") VUndef) []
  = (Ok tt, State [] [Sent (signupResend_request demo_common "a@b.c" VUndef); Called [VNull]]).
Proof.
  intros deps.
  destruct (ok_response_calls_back_with_null demo_common deps [] "a@b.c" VUndef VUndef
              (Response true 201 (inr (VStr "stream lost")))
              ltac:(discriminate) eq_refl) as (_ & H & _).
  apply H. reflexivity.
Defined.

Lemma resend_outcome_any_request h rq rq' a :
  fst (resend_outcome h rq a) = fst (resend_outcome h rq' a)
  /\ st_heap (snd (resend_outcome h rq a)) = st_heap (snd (resend_outcome h rq' a))
  /\ calls (st_trace (snd (resend_outcome h rq a)))
     = calls (st_trace (snd (resend_outcome h rq' a))).
Proof.
  destruct a as [r|reason]; simpl; [|done].
  destruct (ok r); [done|]. by destruct (text r).
Qed.

(** X15: signupResend and requestPasswordReset map the transport's
    answer in the same way: given the same answer to their requests,
    they end with the same result, the same store and the same callback
    invocation. *)
Theorem resend_and_reset_map_alike common deps h s1 s2 info lang1 lang2 :
  s1 <> "" -> s2 <> "" ->
  fetch deps (signupResend_request common s1 lang1)
  = fetch deps (requestPasswordReset_request common s2 info lang2) ->
  let out1 := run (signupResend common deps (VStr s1) lang1) h in
  let out2 := run (requestPasswordReset common deps (VStr s2) info lang2) h in
  fst out1 = fst out2
  /\ st_heap (snd out1) = st_heap (snd out2)
  /\ calls (st_trace (snd out1)) = calls (st_trace (snd out2)).
Proof.
  intros H1 H2 Hf out1 out2. unfold out1, out2.
  rewrite (signupResend_run _ _ _ _ _ H1), (requestPasswordReset_run _ _ _ _ _ _ H2).
  cbn zeta. unfold signupResend_request, requestPasswordReset_request in Hf. rewrite Hf.
  apply resend_outcome_any_request.
Qed.

Lemma resend_and_reset_map_alike_witness :
  let deps := demo_deps VNull VNull (Resolved (standard_response 429 "slow down")) in
  let out1 := run (signupResend demo_common deps (VStr "a@b.c") VUndef) [] in
  let out2 := run (requestPasswordReset demo_common deps (VStr "c@d.e") VUndef (VStr "fr")) [] in
  fst out1 = fst out2
  /\ st_heap (snd out1) = st_heap (snd out2)
  /\ calls (st_trace (snd out1)) = calls (st_trace (snd out2)).
Proof.
  intros deps.
  apply (resend_and_reset_map_alike demo_common deps [] "a@b.c" "c@d.e" VUndef VUndef (VStr "fr"));
    [discriminate|discriminate|reflexivity].
Defined.
